(** * TapCoin server: the sync pipeline of [server.js]

    A shallow embedding of the request handlers of [server.js]
    ([getUser], [calculateLevel], [validateInitData], [checkRateLimit],
    [handleGetUser], [handleTap], [handleLeaderboard]) together with the
    part of the JavaScript semantics they rely on: the values
    [JSON.parse] can produce, the coercions [ToBoolean], [ToNumber] and
    [ToString], [Map] with its insertion order and key comparison, and
    [Array.prototype.sort].

    Modelling conventions.
    - A JavaScript number is [NaN], an infinity or a finite rational;
      sums and differences are kept in lowest terms.  Arithmetic on
      finite numbers is exact: the handlers only add and subtract
      integers, and IEEE doubles are exact on integers of magnitude up
      to 2^53.  The sign of zero is not represented; the handlers
      cannot observe it.
    - A string is a Rocq [string].
    - What the platform computes on strings and bytes (numeric literals,
      number printing, query-string parsing, collation, HMAC-SHA256) is
      a parameter of the development, the class [Platform].
    - [Date.now()] is an input: each handler takes the values its calls
      return. *)

From Stdlib Require Import ZArith QArith Qround Qreduction Lqa Ascii Sorted.
From stdpp Require Import base list strings.

Local Open Scope Z_scope.

(** ** Numbers *)

Inductive number :=
| NaN
| PosInfinity
| NegInfinity
| Finite (q : Q).

Definition num_of_Z (z : Z) : number := Finite (inject_Z z).

(** [a < b] on numbers; false as soon as one side is [NaN]. *)
Definition num_lt (a b : number) : bool :=
  match a, b with
  | NaN, _ | _, NaN => false
  | _, NegInfinity => false
  | NegInfinity, _ => true
  | PosInfinity, _ => false
  | Finite _, PosInfinity => true
  | Finite x, Finite y =>
      match Qcompare x y with Lt => true | _ => false end
  end.

(** [a >= b] on numbers; false as soon as one side is [NaN]. *)
Definition num_ge (a b : number) : bool :=
  match a, b with
  | NaN, _ | _, NaN => false
  | _, _ => negb (num_lt a b)
  end.

Definition Math_floor (n : number) : number :=
  match n with
  | Finite q => num_of_Z (Qfloor q)
  | _ => n
  end.

Definition Math_max (a b : number) : number :=
  match a, b with
  | NaN, _ | _, NaN => NaN
  | _, _ => if num_lt a b then b else a
  end.

Definition Math_min (a b : number) : number :=
  match a, b with
  | NaN, _ | _, NaN => NaN
  | _, _ => if num_lt b a then b else a
  end.

(** [a + b] on numbers. *)
Definition num_add (a b : number) : number :=
  match a, b with
  | NaN, _ | _, NaN => NaN
  | PosInfinity, NegInfinity | NegInfinity, PosInfinity => NaN
  | PosInfinity, _ | _, PosInfinity => PosInfinity
  | NegInfinity, _ | _, NegInfinity => NegInfinity
  | Finite x, Finite y => Finite (Qred (x + y))
  end.

(** [a - b] on numbers. *)
Definition num_sub (a b : number) : number :=
  match a, b with
  | NaN, _ | _, NaN => NaN
  | PosInfinity, PosInfinity | NegInfinity, NegInfinity => NaN
  | PosInfinity, _ | _, NegInfinity => PosInfinity
  | NegInfinity, _ | _, PosInfinity => NegInfinity
  | Finite x, Finite y => Finite (Qred (x - y))
  end.

(** Same number, with [NaN] the same as itself (what [Map] compares
    keys with). *)
Definition num_same (a b : number) : bool :=
  match a, b with
  | NaN, NaN | PosInfinity, PosInfinity | NegInfinity, NegInfinity => true
  | Finite x, Finite y => Qeq_bool x y
  | _, _ => false
  end.

(** ** Values and completions *)

(** The values [JSON.parse] produces, and [undefined] for an absent
    property.  An object is the list of its own properties. *)
#[warnings="-register-all"]
Inductive value :=
| VUndefined
| VNull
| VBool (b : bool)
| VNum (n : number)
| VStr (s : string)
| VArr (elems : list value)
| VObj (props : list (string * value)).

Inductive exn := TypeError.

(** The outcome of evaluating an expression or a call: a value, or a
    thrown exception. *)
Inductive completion (A : Type) :=
| Return (a : A)
| Throw (e : exn).
Arguments Return {A} a.
Arguments Throw {A} e.

Definition bind {A B} (c : completion A) (k : A -> completion B) : completion B :=
  match c with
  | Return a => k a
  | Throw e => Throw e
  end.

Notation "'let*' x ':=' c 'in' k" := (bind c (fun x => k))
  (at level 10, x name, c at level 100, k at level 200).

(** What the platform computes and the source does not define. *)
Class Platform := {
  (** the Number a String converts to (ECMAScript StringToNumber) *)
  StringToNumber : string -> number;
  (** the String a Number converts to (ECMAScript Number::toString) *)
  NumberToString : number -> string;
  (** the application/x-www-form-urlencoded parser of [URLSearchParams] *)
  parse_urlencoded : string -> list (string * string);
  (** [a.localeCompare(b)] *)
  localeCompare : string -> string -> number;
  (** [crypto.createHmac('sha256', key).update(data).digest()] *)
  hmac_sha256 : string -> string -> string;
  (** the hexadecimal encoding chosen by [digest('hex')] *)
  hex : string -> string
}.

Definition ToBoolean (v : value) : bool :=
  match v with
  | VUndefined | VNull => false
  | VBool b => b
  | VNum NaN => false
  | VNum (Finite q) => negb (Qnum q =? 0)
  | VNum _ => true
  | VStr s => negb (String.eqb s EmptyString)
  | VArr _ | VObj _ => true
  end.

Fixpoint has_own {A} (name : string) (props : list (string * A)) : bool :=
  match props with
  | [] => false
  | (k, _) :: rest => if String.eqb k name then true else has_own name rest
  end.

Fixpoint get_own {A} (name : string) (props : list (string * A)) : option A :=
  match props with
  | [] => None
  | (k, v) :: rest => if String.eqb k name then Some v else get_own name rest
  end.

Section Coercions.
Context `{Platform}.

(** [ToString].  An array joins its elements with commas, [null] and
    [undefined] elements printing as the empty string.  An object
    prints through [Object.prototype.toString] unless it has an own
    property [toString]: a parsed property is never callable, so the
    conversion then finds no method and throws. *)
Fixpoint ToString (v : value) : completion string :=
  match v with
  | VUndefined => Return "undefined"%string
  | VNull => Return "null"%string
  | VBool b => Return (if b then "true" else "false")%string
  | VNum n => Return (NumberToString n)
  | VStr s => Return s
  | VArr elems =>
      let element x :=
        match x with
        | VUndefined | VNull => Return EmptyString
        | _ => ToString x
        end in
      (fix join (l : list value) : completion string :=
         match l with
         | [] => Return EmptyString
         | [x] => element x
         | x :: rest =>
             let* s := element x in
             let* r := join rest in
             Return (s ++ "," ++ r)%string
         end) elems
  | VObj props =>
      if has_own "toString" props then Throw TypeError
      else Return "[object Object]"%string
  end.

(** [ToNumber].  ["[object Object]"] is no numeric literal. *)
Definition ToNumber (v : value) : completion number :=
  match v with
  | VUndefined => Return NaN
  | VNull => Return (num_of_Z 0)
  | VBool b => Return (num_of_Z (if b then 1 else 0))
  | VNum n => Return n
  | VStr s => Return (StringToNumber s)
  | VArr _ => let* s := ToString v in Return (StringToNumber s)
  | VObj props =>
      if has_own "toString" props then Throw TypeError else Return NaN
  end.
End Coercions.

(** ** Map

    A [Map] keeps its entries in insertion order and compares keys with
    SameValueZero.  Two objects are the same key only when they are one
    object; every request body is parsed afresh, so an array or object
    taken from a body is the same as no key already in a map. *)

Definition SameValueZero (a b : value) : bool :=
  match a, b with
  | VUndefined, VUndefined | VNull, VNull => true
  | VBool x, VBool y => eqb x y
  | VNum x, VNum y => num_same x y
  | VStr x, VStr y => String.eqb x y
  | _, _ => false
  end.

(** The position and the value of the entry of key [k]. *)
Fixpoint Map_find {V} (m : list (value * V)) (k : value) : option (nat * V) :=
  match m with
  | [] => None
  | (k', v) :: rest =>
      if SameValueZero k' k then Some (0%nat, v)
      else match Map_find rest k with
           | Some (i, w) => Some (S i, w)
           | None => None
           end
  end.

Definition Map_get {V} (m : list (value * V)) (k : value) : option V :=
  snd <$> Map_find m k.

Fixpoint Map_set {V} (m : list (value * V)) (k : value) (v : V) : list (value * V) :=
  match m with
  | [] => [(k, v)]
  | (k', v') :: rest =>
      if SameValueZero k' k then (k', v) :: rest
      else (k', v') :: Map_set rest k v
  end.

Definition Map_values {V} (m : list (value * V)) : list V := snd <$> m.

(** ** Array.prototype.sort

    The sort is stable, and a comparator result that is [NaN] counts as
    zero.  For a comparator that orders the elements consistently a
    stable sort has one possible result, which insertion computes.
    Otherwise the order is the engine's choice; an array in which no
    element compares below its predecessor is one ascending run for
    V8, which leaves it as it is, and so does insertion. *)

Fixpoint sort_insert {A} (comparefn : A -> A -> number) (x : A) (l : list A) : list A :=
  match l with
  | [] => [x]
  | y :: rest =>
      if num_lt (num_of_Z 0) (comparefn x y) then y :: sort_insert comparefn x rest
      else x :: y :: rest
  end.

Definition Array_sort {A} (comparefn : A -> A -> number) (l : list A) : list A :=
  foldr (sort_insert comparefn) [] l.

(** ** The server state *)

Record User := {
  userId : value;
  userName : value;
  coins : number;
  totalTaps : number;
  level : Z;
  tapPower : Z;
  lastTap : Z
}.

(** The two module-level maps, [users] and [rateLimits]. *)
Record State := {
  users : list (value * User);
  rateLimits : list (value * Z)
}.

Definition initial : State := {| users := []; rateLimits := [] |}.

(** One element of the leaderboard array. *)
Record Entry := {
  entry_userId : value;
  entry_userName : value;
  entry_coins : number;
  entry_level : Z
}.

Inductive payload :=
| ErrorBody (error : string)
| UserBody (user : User)
| BoardBody (board : list Entry).

Record response := {
  status : Z;
  headers : list (string * string);
  data : payload
}.

Definition sendJSON (status : Z) (data : payload) : response :=
  {| status := status;
     headers := [("Content-Type", "application/json");
                 ("Access-Control-Allow-Origin", "*");
                 ("Access-Control-Allow-Methods", "GET, POST, OPTIONS");
                 ("Access-Control-Allow-Headers", "Content-Type")]%string;
     data := data |}.

(** ** Helpers *)

Definition new_user (userId : value) (now : Z) : User :=
  {| userId := userId;
     userName := VStr "Player";
     coins := num_of_Z 0;
     totalTaps := num_of_Z 0;
     level := 1;
     tapPower := 1;
     lastTap := now |}.

(** [getUser] returns the live record of [userId], after setting a new
    one if the map has none: its result here is the map, the position
    of the record in it and the record as it is.  [now] is what
    [Date.now()] returns, read when the record is made. *)
Definition getUser (users : list (value * User)) (now : Z) (userId : value)
  : list (value * User) * (nat * User) :=
  match Map_find users userId with
  | Some ref => (users, ref)
  | None =>
      let user := new_user userId now in
      (Map_set users userId user, (length users, user))
  end.

(** Writes through a reference returned by [getUser]. *)
Definition store_at (ref : nat) (user : User) (users : list (value * User))
  : list (value * User) :=
  alter (fun e => (e.1, user)) ref users.

Definition calculateLevel (coins : number) : Z :=
  if num_ge coins (num_of_Z 100000) then 5
  else if num_ge coins (num_of_Z 50000) then 4
  else if num_ge coins (num_of_Z 10000) then 3
  else if num_ge coins (num_of_Z 1000) then 2
  else 1.

(** The readings of [Date.now()] in one run of [handleTap]: in
    [checkRateLimit], in [getUser] when it makes the record, and for
    [lastTap]. *)
Record Clock := {
  now_checkRateLimit : Z;
  now_getUser : Z;
  now_handleTap : Z
}.

Section Server.
Context `{Platform}.

(** [BOT_TOKEN], the environment variable or the empty string. *)
Variable BOT_TOKEN : string.

(** [new URLSearchParams(init)]: a sequence of pairs from an array, a
    record from another object, a parsed query string from anything
    else. *)
Definition URLSearchParams (init : value) : completion (list (string * string)) :=
  match init with
  | VUndefined | VNull => Return []
  | VArr pairs =>
      (fix each (l : list value) : completion (list (string * string)) :=
         match l with
         | [] => Return []
         | VArr [name; val] :: rest =>
             let* n := ToString name in
             let* v := ToString val in
             let* r := each rest in
             Return ((n, v) :: r)
         | _ :: _ => Throw TypeError
         end) pairs
  | VObj props =>
      (fix each (l : list (string * value)) : completion (list (string * string)) :=
         match l with
         | [] => Return []
         | (name, val) :: rest =>
             let* v := ToString val in
             let* r := each rest in
             Return ((name, v) :: r)
         end) props
  | _ => let* s := ToString init in Return (parse_urlencoded s)
  end.

(** [params.get(name)]: the first value of that name, or [null]. *)
Definition params_get (name : string) (params : list (string * string)) : option string :=
  get_own name params.

(** [params.delete(name)]: drops every pair of that name. *)
Definition params_delete (name : string) (params : list (string * string))
  : list (string * string) :=
  filter (fun e => e.1 <> name) params.

Fixpoint join_lines (lines : list string) : string :=
  match lines with
  | [] => EmptyString
  | [l] => l
  | l :: rest => (l ++ String "010"%char (join_lines rest))%string
  end.

(** The body of the [try] block of [validateInitData]. *)
Definition check_hash (initData : value) : completion bool :=
  let* params := URLSearchParams initData in
  let hash := params_get "hash" params in
  let params := params_delete "hash" params in
  let sorted :=
    join_lines
      ((fun e => e.1 ++ "=" ++ e.2)%string <$>
         Array_sort (fun a b => localeCompare a.1 b.1) params) in
  let secretKey := hmac_sha256 "WebAppData" BOT_TOKEN in
  let computedHash := hex (hmac_sha256 secretKey sorted) in
  Return (match hash with
          | Some h => String.eqb computedHash h
          | None => false
          end).

Definition validateInitData (initData : value) : completion bool :=
  if negb (ToBoolean (VStr BOT_TOKEN)) || negb (ToBoolean initData)
  then Return true
  else match check_hash initData with
       | Return b => Return b
       | Throw _ => Return false
       end.

(** [rateLimits.get(userId) || 0], then the window test. *)
Definition checkRateLimit (rateLimits : list (value * Z)) (now : Z) (userId : value)
  : list (value * Z) * bool :=
  let last :=
    match Map_get rateLimits userId with
    | Some t => if t =? 0 then 0 else t
    | None => 0
    end in
  if now - last <? 500 then (rateLimits, false)
  else (Map_set rateLimits userId now, true).

(** ** API handlers *)

Definition handleGetUser (userId : string) (now : Z) (st : State) : State * response :=
  let '(users1, (_, user)) := getUser (users st) now (VStr userId) in
  ({| users := users1; rateLimits := rateLimits st |},
   sendJSON 200 (UserBody user)).

(** Reading a property of the parsed body. *)
Definition property (body : value) (name : string) : value :=
  match body with
  | VObj props => default VUndefined (get_own name props)
  | _ => VUndefined
  end.

Definition maxCoinsPerBatch : number := num_of_Z 50.

(** [Math.min(Math.max(0, Math.floor(coins)), maxCoinsPerBatch)] *)
Definition safeCoins (reqCoins : value) : completion number :=
  let* n := ToNumber reqCoins in
  Return (Math_min (Math_max (num_of_Z 0) (Math_floor n)) maxCoinsPerBatch).

(** The five assignments to the live record. *)
Definition merge (reqUserName : value) (safe : number) (now : Z) (user : User) : User :=
  {| userId := userId user;
     userName := if ToBoolean reqUserName then reqUserName else userName user;
     coins := num_add (coins user) safe;
     totalTaps := num_add (totalTaps user) safe;
     level := calculateLevel (num_add (coins user) safe);
     tapPower := tapPower user;
     lastTap := now |}.

(** [const { userId, userName, coins, initData } = body]; destructuring
    [null] throws. *)
Definition destructure (body : value) : completion (value * value * value * value) :=
  match body with
  | VUndefined | VNull => Throw TypeError
  | _ => Return (property body "userId", property body "userName",
                 property body "coins", property body "initData")
  end.

Definition handleTap (body : value) (clock : Clock) (st : State)
  : State * completion response :=
  match destructure body with
  | Throw e => (st, Throw e)
  | Return (reqUserId, reqUserName, reqCoins, initData) =>
      if negb (ToBoolean reqUserId) || negb (ToBoolean reqCoins)
      then (st, Return (sendJSON 400 (ErrorBody "Missing data")))
      else match validateInitData initData with
      | Throw e => (st, Throw e)
      | Return false => (st, Return (sendJSON 403 (ErrorBody "Invalid initData")))
      | Return true =>
          let '(limits, admitted) :=
            checkRateLimit (rateLimits st) (now_checkRateLimit clock) reqUserId in
          let st := {| users := users st; rateLimits := limits |} in
          if negb admitted
          then (st, Return (sendJSON 429 (ErrorBody "Too fast")))
          else match safeCoins reqCoins with
          | Throw e => (st, Throw e)
          | Return safe =>
              let '(users1, (ref, user)) :=
                getUser (users st) (now_getUser clock) reqUserId in
              let user := merge reqUserName safe (now_handleTap clock) user in
              ({| users := store_at ref user users1; rateLimits := limits |},
               Return (sendJSON 200 (UserBody user)))
          end
      end
  end.

(** [(a, b) => b.coins - a.coins] *)
Definition by_coins (a b : User) : number := num_sub (coins b) (coins a).

Definition handleLeaderboard (st : State) : State * response :=
  let sorted :=
    (fun u => {| entry_userId := userId u;
                 entry_userName := userName u;
                 entry_coins := coins u;
                 entry_level := level u |}) <$>
      take 100 (Array_sort by_coins (Map_values (users st))) in
  (st, sendJSON 200 (BoardBody sorted)).

(** ** Routes

    The three API routes of the request listener.  The body of a
    [POST] is [None] when [JSON.parse] throws on it. *)
Inductive request :=
| GET_user (userId : string) (now : Z)
| POST_tap (body : option value) (clock : Clock)
| GET_leaderboard.

Definition serve (req : request) (st : State) : State * response :=
  match req with
  | GET_user userId now => handleGetUser userId now st
  | POST_tap None _ => (st, sendJSON 400 (ErrorBody "Invalid JSON"))
  | POST_tap (Some body) clock =>
      match handleTap body clock st with
      | (st', Return res) => (st', res)
      | (st', Throw _) => (st', sendJSON 400 (ErrorBody "Invalid JSON"))
      end
  | GET_leaderboard => handleLeaderboard st
  end.

(** The state after a sequence of requests, oldest first. *)
Definition run (reqs : list request) (st : State) : State :=
  foldl (fun st req => (serve req st).1) st reqs.

(** The states the server can be in. *)
Inductive reachable : State -> Prop :=
| reachable_initial : reachable initial
| reachable_serve st req : reachable st -> reachable (serve req st).1.
End Server.

(** ** The properties, in the words of the specification *)

(** The level of a balance: below 1000 it is 1, below 10000 it is 2,
    below 50000 it is 3, below 100000 it is 4, and from 100000 on it
    is 5.  [NaN] is on neither side of any threshold. *)
Definition level_of_totalCoins (totalCoins : number) : option Z :=
  if num_lt totalCoins (num_of_Z 1000) then Some 1
  else if num_lt totalCoins (num_of_Z 10000) then Some 2
  else if num_lt totalCoins (num_of_Z 50000) then Some 3
  else if num_lt totalCoins (num_of_Z 100000) then Some 4
  else if num_ge totalCoins (num_of_Z 100000) then Some 5
  else None.

(** The reported delta floored and clamped into [[0, 50]], the
    infinities going to the ends of the range. *)
Definition clamped_delta (reportedDelta : number) : Z :=
  match reportedDelta with
  | Finite q => Z.min (Z.max 0 (Qfloor q)) 50
  | PosInfinity => 50
  | NegInfinity | NaN => 0
  end.

(** The balance [getUser] finds for a user: that of the record, or that
    of the record it would make. *)
Definition balance (users : list (value * User)) (userId : value) : number :=
  match Map_get users userId with
  | Some user => coins user
  | None => num_of_Z 0
  end.

(** [coins] is less than or equal to 0, or is not a numeric value. *)
Definition not_positive_or_not_numeric (reqCoins : value) : bool :=
  match reqCoins with
  | VNum n => num_ge (num_of_Z 0) n
  | _ => true
  end.

(** A payload is malformed when it cannot be parsed or has no signature
    field. *)
Definition malformed `{Platform} (initData : value) : Prop :=
  match URLSearchParams initData with
  | Throw _ => True
  | Return params => params_get "hash" params = None
  end.

(** A balance that counts coins: a non-negative integer. *)
Definition is_count (n : number) : Prop := exists c, 0 <= c /\ n = num_of_Z c.

(** The balances of a leaderboard answer, in its order. *)
Definition board_coins (res : response) : list number :=
  match data res with
  | BoardBody board => entry_coins <$> board
  | _ => []
  end.

(** One record has at least the balance of another. *)
Definition ge_coins (a b : User) : Prop := num_ge (coins a) (coins b) = true.

(** Descending order: each balance is at least every later one. *)
Definition descending (l : list number) : Prop :=
  StronglySorted (fun a b => num_ge a b = true) l.

(** ** Sample inputs *)

(** A platform to run the handlers on.  No answer to the sample
    requests below depends on these choices: the requests carry no
    string that a handler converts to a number or parses. *)
Definition sample_platform : Platform :=
  {| StringToNumber := fun _ => NaN;
     NumberToString := fun _ => "NaN"%string;
     parse_urlencoded := fun _ => [];
     localeCompare := fun _ _ => num_of_Z 0;
     hmac_sha256 := fun _ data => data;
     hex := fun s => s |}.

(** The body [{userId, coins}] of a [POST /api/tap]. *)
Definition tap_body (userId : string) (reqCoins : value) : value :=
  VObj [("userId"%string, VStr userId); ("coins"%string, reqCoins)].

(** The body [{userId, coins, initData}] of a [POST /api/tap]. *)
Definition signed_tap_body (userId : string) (reqCoins initData : value) : value :=
  VObj [("userId"%string, VStr userId); ("coins"%string, reqCoins);
        ("initData"%string, initData)].

(** A run of a handler during which the clock does not advance. *)
Definition at_time (now : Z) : Clock :=
  {| now_checkRateLimit := now; now_getUser := now; now_handleTap := now |}.

(** The state after a first sync of 30 coins by ["u1"] at time 1000,
    with no token configured. *)
Definition sample_state : State :=
  (serve (H:=sample_platform) EmptyString
     (POST_tap (Some (tap_body "u1" (VNum (num_of_Z 30)))) (at_time 1000))
     initial).1.

(** ** The request listener

    The callback of [http.createServer] and [serveStatic].  A request
    comes with its method, with [url.pathname] as [new URL] parsed it,
    with what [JSON.parse] makes of its body, and with the readings of
    the clock. *)

(** [s.split('/')] *)
Fixpoint split_slash (s : string) : list string :=
  match s with
  | EmptyString => [EmptyString]
  | String c rest =>
      if Ascii.eqb c "/" then EmptyString :: split_slash rest
      else match split_slash rest with
           | seg :: segs => String c seg :: segs
           | [] => [String c EmptyString]
           end
  end.

(** What [path] and [fs] compute for [serveStatic].  An extension is
    empty or starts with a dot. *)
Class Files := {
  (** [path.join(__dirname, 'public', p)] *)
  public_path : string -> string;
  (** [path.extname(filePath)] *)
  extname : string -> string;
  (** what [fs.readFile] hands to its callback: the data, or an error *)
  readFile : string -> option string;
  extname_dot : forall p,
    extname p = EmptyString \/ exists s, extname p = String "." s
}.

Inductive body :=
| BodyJSON (data : payload)
| BodyText (text : string)
| BodyNone.

(** What is written to [res]: [writeHead] and [end]. *)
Record answer := {
  code : Z;
  fields : list (string * string);
  sent : body
}.

Definition of_response (res : response) : answer :=
  {| code := status res; fields := headers res; sent := BodyJSON (data res) |}.

Definition mimeTypes : list (string * string) :=
  [(".html", "text/html");
   (".js", "application/javascript");
   (".css", "text/css");
   (".png", "image/png");
   (".jpg", "image/jpeg");
   (".svg", "image/svg+xml");
   (".json", "application/json")]%string.

Definition serveStatic `{Files} (filePath : string) : answer :=
  let ext := extname filePath in
  match readFile filePath with
  | None => {| code := 404; fields := []; sent := BodyText "Not found" |}
  | Some data =>
      {| code := 200;
         fields := [("Content-Type"%string,
                     default "application/octet-stream"%string
                       (get_own ext mimeTypes))];
         sent := BodyText data |}
  end.

Record Incoming := {
  method : string;
  pathname : string;
  parsed : option value;
  clock : Clock
}.

Definition preflight : answer :=
  {| code := 204;
     fields := [("Access-Control-Allow-Origin", "*");
                ("Access-Control-Allow-Methods", "GET, POST, OPTIONS");
                ("Access-Control-Allow-Headers", "Content-Type")]%string;
     sent := BodyNone |}.

Definition listener `{Platform} `{Files} (BOT_TOKEN : string)
    (req : Incoming) (st : State) : State * answer :=
  if String.eqb (method req) "OPTIONS" then (st, preflight)
  else if String.prefix "/api/" (pathname req) then
    if String.eqb (method req) "GET"
       && String.prefix "/api/user/" (pathname req)
    then
      let userId :=
        match split_slash (pathname req) !! 3%nat with
        | Some segment => VStr segment
        | None => VUndefined
        end in
      let '(users1, (_, user)) :=
        getUser (users st) (now_getUser (clock req)) userId in
      ({| users := users1; rateLimits := rateLimits st |},
       of_response (sendJSON 200 (UserBody user)))
    else if String.eqb (method req) "POST"
            && String.eqb (pathname req) "/api/tap"
    then
      let '(st', res) := serve BOT_TOKEN (POST_tap (parsed req) (clock req)) st in
      (st', of_response res)
    else if String.eqb (method req) "GET"
            && String.eqb (pathname req) "/api/leaderboard"
    then
      let '(st', res) := handleLeaderboard st in (st', of_response res)
    else (st, of_response (sendJSON 404 (ErrorBody "Not found")))
  else
    (st, serveStatic
           (public_path (if String.eqb (pathname req) "/"
                         then "index.html"%string else pathname req))).

(** ** How one request changes the users *)

(** What a request about the user of key [k] does to the users, when it
    does anything: it merges a delta into the record found for [k], or
    adds a record for [k] at the end, new or with a delta merged. *)
Inductive users_change `{Platform} (k : value) (us us' : list (value * User)) : Prop :=
| change_merge i u name delta safe now :
    Map_find us k = Some (i, u) -> safeCoins delta = Return safe ->
    us' = store_at i (merge name safe now u) us -> users_change k us us'
| change_new now :
    Map_find us k = None ->
    us' = us ++ [(k, new_user k now)] -> users_change k us us'
| change_new_merge name delta safe now now' :
    Map_find us k = None -> safeCoins delta = Return safe ->
    us' = us ++ [(k, merge name safe now' (new_user k now))] ->
    users_change k us us'.

(** An entry of the users is in order when its record carries its key
    as [userId], the key is truthy or the empty string, and the key,
    unless an array or object, finds this entry and no other. *)
Definition entry_ok (us : list (value * User)) (i : nat) (k : value) (u : User) : Prop :=
  userId u = k /\
  (ToBoolean k = true \/ k = VStr EmptyString) /\
  (SameValueZero k k = true -> Map_find us k = Some (i, u)).

Definition store_ok (us : list (value * User)) : Prop :=
  forall i k u, us !! i = Some (k, u) -> entry_ok us i k u.

(** The element of the leaderboard made of a record. *)
Definition entry_of (u : User) : Entry :=
  {| entry_userId := userId u;
     entry_userName := userName u;
     entry_coins := coins u;
     entry_level := level u |}.

(** All the records in the order of the leaderboard, before the cut
    at 100. *)
Definition ranking (st : State) : list User :=
  Array_sort by_coins (Map_values (users st)).

(** The keys of a map, in its order. *)
Definition Map_keys {V} (m : list (value * V)) : list value := fst <$> m.

(** A file system without files. *)
Definition sample_files : Files :=
  {| public_path := fun p => ("public" ++ p)%string;
     extname := fun _ => EmptyString;
     readFile := fun _ => None;
     extname_dot := fun _ => or_introl eq_refl |}.

(** The record of a user with a number for [userId] and that number of
    coins. *)
Definition numbered_user (n : nat) : User :=
  {| userId := VNum (num_of_Z (Z.of_nat n));
     userName := VStr "Player";
     coins := num_of_Z (Z.of_nat n);
     totalTaps := num_of_Z (Z.of_nat n);
     level := 1;
     tapPower := 1;
     lastTap := 0 |}.

(** A state with 101 users, who have 1 to 101 coins. *)
Definition crowd : State :=
  {| users := (fun n => (userId (numbered_user n), numbered_user n)) <$> seq 1 101;
     rateLimits := [] |}.

(** A string without a slash. *)
Fixpoint slash_free (s : string) : bool :=
  match s with
  | EmptyString => true
  | String c rest => negb (Ascii.eqb c "/") && slash_free rest
  end.

(** The header fields [sendJSON] writes. *)
Definition json_cors_headers : list (string * string) :=
  [("Content-Type", "application/json");
   ("Access-Control-Allow-Origin", "*");
   ("Access-Control-Allow-Methods", "GET, POST, OPTIONS");
   ("Access-Control-Allow-Headers", "Content-Type")]%string.

(** The user a request is about. *)
Definition subject (req : request) : option value :=
  match req with
  | GET_user userId _ => Some (VStr userId)
  | POST_tap (Some body) _ => Some (property body "userId")
  | _ => None
  end.

(** The hash [validateInitData] computes for the pairs of a payload. *)
Definition expected_hash `{Platform} (BOT_TOKEN : string)
    (params : list (string * string)) : string :=
  hex (hmac_sha256 (hmac_sha256 "WebAppData" BOT_TOKEN)
         (join_lines
            ((fun e => e.1 ++ "=" ++ e.2)%string <$>
               Array_sort (fun a b => localeCompare a.1 b.1)
                 (params_delete "hash" params)))).

(** [a.localeCompare(b) > 0]: the sort of [validateInitData] puts [a]
    after [b]. *)
Definition follows `{Platform} (a b : string) : bool :=
  num_lt (num_of_Z 0) (localeCompare a b).

(** A comparison of strings by their characters, as [localeCompare]
    of a platform to run the sort on. *)
Definition compare_code_units (a b : string) : number :=
  match String.compare a b with
  | Lt => num_of_Z (-1)
  | Eq => num_of_Z 0
  | Gt => num_of_Z 1
  end.

(** [sample_platform] with this comparison and an HMAC that depends on
    the key and on the data. *)
Definition collating_platform : Platform :=
  {| StringToNumber := fun _ => NaN;
     NumberToString := fun _ => "NaN"%string;
     parse_urlencoded := fun _ => [];
     localeCompare := compare_code_units;
     hmac_sha256 := fun key data => (key ++ ":" ++ data)%string;
     hex := fun s => s |}.

(** ** Facts about numbers *)

Lemma num_lt_Finite x y : num_lt (Finite x) (Finite y) = true <-> (x < y)%Q.
Proof.
  unfold num_lt. rewrite Qlt_alt.
  destruct (x ?= y)%Q; split; congruence.
Qed.

Lemma num_ge_Finite x y : num_ge (Finite x) (Finite y) = true <-> (y <= x)%Q.
Proof.
  unfold num_ge. rewrite negb_true_iff, <- not_true_iff_false, num_lt_Finite.
  split; [apply Qnot_lt_le | apply Qle_not_lt].
Qed.

Lemma num_lt_of_Z a b : num_lt (num_of_Z a) (num_of_Z b) = (a <? b).
Proof.
  apply eq_true_iff_eq. unfold num_of_Z.
  rewrite num_lt_Finite, <- Zlt_Qlt. symmetry. apply Z.ltb_lt.
Qed.

Lemma num_ge_trans a b c :
  num_ge a b = true -> num_ge b c = true -> num_ge a c = true.
Proof.
  destruct a as [| | |x], b as [| | |y], c as [| | |z]; try (cbn; congruence).
  rewrite !num_ge_Finite. intros Hyx Hzy. by apply Qle_trans with y.
Qed.

Lemma num_ge_negb_lt a b : a <> NaN -> b <> NaN -> num_ge a b = negb (num_lt a b).
Proof. destruct a, b; cbn; congruence. Qed.

Lemma Qred_inject_Z z : Qred (inject_Z z) = inject_Z z.
Proof.
  unfold Qred, inject_Z.
  generalize (Z.ggcd_gcd z 1) (Z.ggcd_correct_divisors z 1).
  destruct (Z.ggcd z 1) as [g [aa bb]]. cbn [fst snd].
  rewrite Z.gcd_1_r. intros -> [Ha Hb].
  rewrite Z.mul_1_l in Ha, Hb. by subst.
Qed.

Lemma num_add_of_Z a b : num_add (num_of_Z a) (num_of_Z b) = num_of_Z (a + b).
Proof.
  unfold num_of_Z, num_add. f_equal.
  rewrite <- inject_Z_plus. apply Qred_inject_Z.
Qed.

Lemma Math_max_of_Z a b : Math_max (num_of_Z a) (num_of_Z b) = num_of_Z (Z.max a b).
Proof.
  change (Math_max (num_of_Z a) (num_of_Z b))
    with (if num_lt (num_of_Z a) (num_of_Z b) then num_of_Z b else num_of_Z a).
  rewrite num_lt_of_Z. destruct (Z.ltb_spec a b); f_equal; lia.
Qed.

Lemma Math_min_of_Z a b : Math_min (num_of_Z a) (num_of_Z b) = num_of_Z (Z.min a b).
Proof.
  change (Math_min (num_of_Z a) (num_of_Z b))
    with (if num_lt (num_of_Z b) (num_of_Z a) then num_of_Z b else num_of_Z a).
  rewrite num_lt_of_Z. destruct (Z.ltb_spec b a); f_equal; lia.
Qed.

(** ** Facts about Map *)

Lemma num_same_sym a b : num_same a b = num_same b a.
Proof.
  destruct a as [| | |x], b as [| | |y]; try done. cbn.
  apply eq_true_iff_eq. rewrite !Qeq_bool_iff. split; apply Qeq_sym.
Qed.

Lemma num_same_trans a b c :
  num_same a b = true -> num_same b c = true -> num_same a c = true.
Proof.
  destruct a as [| | |x], b as [| | |y], c as [| | |z]; try done. cbn.
  rewrite !Qeq_bool_iff. apply Qeq_trans.
Qed.

Lemma SameValueZero_sym a b : SameValueZero a b = SameValueZero b a.
Proof.
  destruct a, b; try done; cbn.
  - by destruct b, b0.
  - apply num_same_sym.
  - apply String.eqb_sym.
Qed.

Lemma SameValueZero_trans a b c :
  SameValueZero a b = true -> SameValueZero b c = true -> SameValueZero a c = true.
Proof.
  destruct a, b, c; try done; cbn.
  - by destruct b, b0, b1.
  - apply num_same_trans.
  - rewrite !String.eqb_eq. congruence.
Qed.

Section MapFacts.
Context {V : Type}.
Implicit Types (m : list (value * V)) (k : value) (v : V).

(** A key that is not there is added at the end. *)
Lemma Map_set_fresh m k v : Map_find m k = None -> Map_set m k v = m ++ [(k, v)].
Proof.
  induction m as [|[k0 v0] m IH]; cbn; [done|].
  destruct (SameValueZero k0 k); [done|].
  destruct (Map_find m k) as [[i w]|]; [done|]. intros _. by rewrite IH.
Qed.

Lemma Map_find_lookup m k i v :
  Map_find m k = Some (i, v) ->
  exists k', m !! i = Some (k', v) /\ SameValueZero k' k = true.
Proof.
  revert i. induction m as [|[k0 v0] m IH]; intros i; cbn; [done|].
  destruct (SameValueZero k0 k) eqn:E.
  - intros [= <- <-]. by exists k0.
  - destruct (Map_find m k) as [[j w]|]; [|done].
    intros [= <- <-]. by apply IH.
Qed.

Lemma Map_get_set m k k' v :
  SameValueZero k k' = true -> Map_get (Map_set m k v) k' = Some v.
Proof.
  intros Hk. unfold Map_get.
  induction m as [|[k0 v0] m IH]; cbn; [by rewrite Hk|].
  destruct (SameValueZero k0 k) eqn:E; cbn.
  - by rewrite (SameValueZero_trans _ _ _ E Hk).
  - destruct (SameValueZero k0 k') eqn:E'.
    + rewrite SameValueZero_sym in Hk.
      by rewrite (SameValueZero_trans _ _ _ E' Hk) in E.
    + by destruct (Map_find (Map_set m k v) k') as [[i w]|];
        simplify_eq/=.
Qed.
(** Writing through the position of a key keeps it the position of
    that key. *)
Lemma Map_find_alter m k i v v' :
  Map_find m k = Some (i, v) ->
  Map_find (alter (fun e => (e.1, v')) i m) k = Some (i, v').
Proof.
  revert i. induction m as [|[k0 v0] m IH]; intros i; cbn; [done|].
  destruct (SameValueZero k0 k) eqn:E.
  - intros [= <- <-]. cbn. by rewrite E.
  - destruct (Map_find m k) as [[j w]|]; [|done].
    intros [= <- <-]. cbn. by rewrite E, (IH j eq_refl).
Qed.

Lemma Map_find_snoc m k v :
  Map_find m k = None -> SameValueZero k k = true ->
  Map_find (m ++ [(k, v)]) k = Some (length m, v).
Proof.
  intros Hnone Hk. induction m as [|[k0 v0] m IH]; cbn in *; [by rewrite Hk|].
  destruct (SameValueZero k0 k); [done|].
  destruct (Map_find m k) as [[j w]|]; [done|]. by rewrite IH.
Qed.
End MapFacts.

(** ** Facts about the level *)

Lemma calculateLevel_NaN : calculateLevel NaN = 1.
Proof. reflexivity. Qed.

Lemma calculateLevel_thresholds c :
  c <> NaN -> level_of_totalCoins c = Some (calculateLevel c).
Proof.
  intros Hc. destruct c as [| | |q]; [done|done|done|].
  unfold level_of_totalCoins, calculateLevel, num_of_Z.
  repeat match goal with
  | |- context [num_lt (Finite q) (Finite ?t)] =>
      let E := fresh "E" in
      destruct (num_lt (Finite q) (Finite t)) eqn:E;
      [apply num_lt_Finite in E
      |apply not_true_iff_false in E; rewrite num_lt_Finite in E]
  | |- context [num_ge (Finite q) (Finite ?t)] =>
      let E := fresh "E" in
      destruct (num_ge (Finite q) (Finite t)) eqn:E;
      [apply num_ge_Finite in E
      |apply not_true_iff_false in E; rewrite num_ge_Finite in E]
  end; unfold inject_Z in *; try done; exfalso; lra.
Qed.

Lemma calculateLevel_mono a b :
  num_ge b a = true -> calculateLevel a <= calculateLevel b.
Proof.
  intros Hba. unfold calculateLevel.
  repeat match goal with
  | |- context [num_ge a ?t] =>
      let E := fresh "E" in
      destruct (num_ge a t) eqn:E;
      [rewrite ?(num_ge_trans b a t Hba E)|]
  end;
  repeat match goal with
  | |- context [num_ge b ?t] => destruct (num_ge b t)
  end; lia.
Qed.

(** ** Facts about the handlers *)

Section Handlers.
Context `{Platform} (BOT_TOKEN : string).

(** [getUser] returns a record that is in the map it leaves, at the
    position it gives. *)
Lemma getUser_lookup us now k us1 ref u :
  getUser us now k = (us1, (ref, u)) ->
  exists k', us1 !! ref = Some (k', u).
Proof.
  unfold getUser. destruct (Map_find us k) as [[i w]|] eqn:E.
  - intros [= <- <- <-].
    destruct (Map_find_lookup _ _ _ _ E) as (k' & Hk' & _). eauto.
  - intros [= <- <- <-]. exists k.
    rewrite (Map_set_fresh _ _ _ E). by apply list_lookup_middle.
Qed.

(** The record [getUser] returns has the balance [balance] names. *)
Lemma getUser_balance us now k us1 ref u :
  getUser us now k = (us1, (ref, u)) -> coins u = balance us k.
Proof.
  unfold getUser, balance, Map_get.
  destruct (Map_find us k) as [[i w]|]; by intros [= <- <- <-].
Qed.

(** After a write through the reference [getUser] returns, the map
    holds the written record for the user, when the [userId] is not an
    array or object. *)
Lemma getUser_store_at us now k us1 ref u u' :
  getUser us now k = (us1, (ref, u)) ->
  SameValueZero k k = true ->
  Map_get (store_at ref u' us1) k = Some u'.
Proof.
  unfold getUser, store_at, Map_get.
  destruct (Map_find us k) as [[i w]|] eqn:E; intros [= <- <- <-] Hk.
  - by rewrite (Map_find_alter _ _ _ _ u' E).
  - rewrite (Map_set_fresh _ _ _ E).
    by rewrite (Map_find_alter _ _ _ _ u' (Map_find_snoc _ _ _ E Hk)).
Qed.

Section Preservation.
(** A property of records that a new record has and the merge
    keeps holds of every record of every reachable state. *)
Variable Q : User -> Prop.
Hypothesis Q_new : forall k now, Q (new_user k now).
Hypothesis Q_merge : forall name delta safe now u,
  safeCoins delta = Return safe -> Q u -> Q (merge name safe now u).

Lemma getUser_preserves us now k us1 ref u :
  getUser us now k = (us1, (ref, u)) ->
  Forall (fun e => Q e.2) us ->
  Forall (fun e => Q e.2) us1 /\ Q u.
Proof.
  unfold getUser. destruct (Map_find us k) as [[i w]|] eqn:E.
  - intros [= <- <- <-] Hall. split; [done|].
    destruct (Map_find_lookup _ _ _ _ E) as (k' & Hk' & _).
    apply (Forall_lookup_1 _ _ _ _ Hall Hk').
  - intros [= <- <- <-] Hall. split; [|apply Q_new].
    rewrite (Map_set_fresh _ _ _ E). apply Forall_app.
    split; [done|]. apply Forall_singleton, Q_new.
Qed.

Lemma handleTap_preserves body clock st :
  Forall (fun e => Q e.2) (users st) ->
  Forall (fun e => Q e.2) (users (handleTap BOT_TOKEN body clock st).1).
Proof.
  intros Hall. unfold handleTap.
  destruct (destructure body) as [[[[uid name] delta] init]|]; [|done].
  destruct (negb (ToBoolean uid) || negb (ToBoolean delta)); [done|].
  destruct (validateInitData BOT_TOKEN init) as [[]|]; [|done|done].
  destruct (checkRateLimit _ _ _) as [limits []]; [|done]. cbn.
  destruct (safeCoins delta) as [safe|] eqn:Es; [|done].
  destruct (getUser _ _ _) as [us1 [ref u]] eqn:Eg. cbn.
  destruct (getUser_preserves _ _ _ _ _ _ Eg Hall) as [Hall1 Hu].
  apply Forall_alter; [done|]. intros ? _ _. by apply (Q_merge _ delta).
Qed.

Lemma serve_preserves req st :
  Forall (fun e => Q e.2) (users st) ->
  Forall (fun e => Q e.2) (users (serve BOT_TOKEN req st).1).
Proof.
  intros Hall. destruct req as [k now|[body|] clock|]; cbn; [| |done|done].
  - unfold handleGetUser.
    destruct (getUser _ _ _) as [us1 [ref u]] eqn:Eg. cbn.
    by destruct (getUser_preserves _ _ _ _ _ _ Eg Hall).
  - pose proof (handleTap_preserves body clock st Hall) as Htap.
    by destruct (handleTap _ _ _ _) as [st' [res|e]].
Qed.

Lemma reachable_preserves st :
  reachable BOT_TOKEN st -> Forall (fun e => Q e.2) (users st).
Proof.
  induction 1 as [|st req _ IH]; [by constructor|].
  by apply serve_preserves.
Qed.
End Preservation.
End Handlers.

(** ** The level is a function of the balance *)

(** Claim C4.  In every state the server can reach, through record
    creation in [getUser] and merges in [handleTap], the level of each
    record is [calculateLevel] of its balance;  on every number
    [calculateLevel] is the step function with thresholds 1000, 10000,
    50000 and 100000 and values 1 to 5;  and it never decreases when
    the balance grows. *)
Theorem C4_level_is_step_function_of_coins :
  (forall (P : Platform) BOT_TOKEN st,
     reachable BOT_TOKEN st ->
     forall e, e ∈ users st -> level e.2 = calculateLevel (coins e.2)) /\
  (forall c, c <> NaN -> level_of_totalCoins c = Some (calculateLevel c)) /\
  (forall a b, num_ge b a = true -> calculateLevel a <= calculateLevel b).
Proof.
  split; [|split].
  - intros P BOT_TOKEN st Hst.
    apply (Forall_forall (fun e => level e.2 = calculateLevel (coins e.2))).
    by apply (reachable_preserves BOT_TOKEN
                (fun u => level u = calculateLevel (coins u))).
  - apply calculateLevel_thresholds.
  - apply calculateLevel_mono.
Qed.

Lemma C4_level_is_step_function_of_coins_witness :
  (forall e, e ∈ users sample_state -> level e.2 = calculateLevel (coins e.2)) /\
  level_of_totalCoins (num_of_Z 12000) = Some (calculateLevel (num_of_Z 12000)) /\
  calculateLevel (num_of_Z 999) <= calculateLevel (num_of_Z 60000).
Proof.
  destruct C4_level_is_step_function_of_coins as (Hinv & Hstep & Hmono).
  split; [|split].
  - apply (Hinv sample_platform EmptyString).
    apply reachable_serve, reachable_initial.
  - apply Hstep. discriminate.
  - apply Hmono. reflexivity.
Defined.

(** ** The tap counter equals the balance *)

(** Claim C10.  In every state the server can reach, [totalTaps] of each
    record is its [coins]: both start at 0 and each merge adds the same
    amount to both. *)
Theorem C10_totalTaps_equals_coins `{Platform} BOT_TOKEN st :
  reachable BOT_TOKEN st ->
  forall e, e ∈ users st -> totalTaps e.2 = coins e.2.
Proof.
  intros Hst.
  apply (Forall_forall (fun e => totalTaps e.2 = coins e.2)).
  apply (reachable_preserves BOT_TOKEN (fun u => totalTaps u = coins u));
    [done| |done].
  intros name delta safe now u _ Hu. cbn. by rewrite Hu.
Qed.

Lemma C10_totalTaps_equals_coins_witness :
  Forall (fun e => totalTaps e.2 = coins e.2) (users sample_state).
Proof.
  apply Forall_forall.
  apply (C10_totalTaps_equals_coins (H:=sample_platform) EmptyString).
  apply reachable_serve, reachable_initial.
Defined.

(** ** Facts about the clamp *)

Lemma clamped_delta_range n : 0 <= clamped_delta n <= 50.
Proof. destruct n; cbn; lia. Qed.

Lemma clamped_delta_ceiling n :
  num_lt (num_of_Z 50) n = true -> clamped_delta n = 50.
Proof.
  destruct n as [| | |q]; try done. intros Hq%num_lt_Finite. cbn.
  pose proof (Qfloor_resp_le _ _ (Qlt_le_weak _ _ Hq)) as Hfl.
  rewrite Qfloor_Z in Hfl. lia.
Qed.

Lemma clamped_delta_negative n :
  num_lt n (num_of_Z 0) = true -> clamped_delta n = 0.
Proof.
  destruct n as [| | |q]; try done. intros Hq%num_lt_Finite. cbn.
  pose proof (Qfloor_resp_le _ _ (Qlt_le_weak _ _ Hq)) as Hfl.
  rewrite Qfloor_Z in Hfl. lia.
Qed.

Lemma clamp_number n :
  n <> NaN ->
  Math_min (Math_max (num_of_Z 0) (Math_floor n)) maxCoinsPerBatch
  = num_of_Z (clamped_delta n).
Proof.
  intros Hn. destruct n as [| | |q]; [done|done|done|].
  unfold maxCoinsPerBatch. cbn [Math_floor clamped_delta].
  by rewrite Math_max_of_Z, Math_min_of_Z.
Qed.

Lemma ToBoolean_number n : ToBoolean (VNum n) = true -> n <> NaN.
Proof. by destruct n. Qed.

Section Tap.
Context `{Platform} (BOT_TOKEN : string).

Lemma safeCoins_number n :
  n <> NaN -> safeCoins (VNum n) = Return (num_of_Z (clamped_delta n)).
Proof. intros Hn. unfold safeCoins. cbn [ToNumber bind]. by rewrite clamp_number. Qed.

(** Whatever is reported, the amount merged is [NaN] or an integer
    from 0 to 50. *)
Lemma safeCoins_range delta safe :
  safeCoins delta = Return safe ->
  safe = NaN \/ exists k, 0 <= k <= 50 /\ safe = num_of_Z k.
Proof.
  unfold safeCoins. destruct (ToNumber delta) as [n|]; [|done].
  cbn [bind]. intros [= <-]. destruct n as [| | |q] eqn:En; [by left|..];
    right; exists (clamped_delta n); subst n;
    (split; [apply clamped_delta_range|by apply clamp_number]).
Qed.

(** A body with a property that is not [undefined] is an object. *)
Lemma property_truthy body name :
  ToBoolean (property body name) = true ->
  destructure body
  = Return (property body "userId", property body "userName",
            property body "coins", property body "initData").
Proof. by destruct body. Qed.

(** What an accepted sync has gone through. *)
Lemma handleTap_accepted body clock st st' r :
  handleTap BOT_TOKEN body clock st = (st', Return r) -> status r = 200 ->
  exists uid name delta init safe us1 ref u,
    destructure body = Return (uid, name, delta, init) /\
    ToBoolean uid = true /\ ToBoolean delta = true /\
    validateInitData BOT_TOKEN init = Return true /\
    checkRateLimit (rateLimits st) (now_checkRateLimit clock) uid
    = (rateLimits st', true) /\
    safeCoins delta = Return safe /\
    getUser (users st) (now_getUser clock) uid = (us1, (ref, u)) /\
    users st' = store_at ref (merge name safe (now_handleTap clock) u) us1 /\
    r = sendJSON 200 (UserBody (merge name safe (now_handleTap clock) u)).
Proof.
  unfold handleTap.
  destruct (destructure body) as [[[[uid name] delta] init]|]; [|done].
  destruct (ToBoolean uid) eqn:Euid, (ToBoolean delta) eqn:Edelta;
    cbn [negb orb]; try by intros [= <- <-].
  destruct (validateInitData BOT_TOKEN init) as [[]|] eqn:Ev;
    try by intros [= <- <-].
  destruct (checkRateLimit _ _ _) as [limits []] eqn:El; cbn;
    try by intros [= <- <-].
  destruct (safeCoins delta) as [safe|] eqn:Es; [|done].
  destruct (getUser _ _ _) as [us1 [ref u]] eqn:Eg.
  intros [= <- <-] _. by exists uid, name, delta, init, safe, us1, ref, u.
Qed.

(** An outcome other than success leaves the users as they were, and
    a rejection that is answered leaves the whole state; the answer is
    one of the three error responses. *)
Lemma handleTap_rejected body clock st st' out :
  handleTap BOT_TOKEN body clock st = (st', out) ->
  (forall r, out = Return r -> status r <> 200) ->
  users st' = users st /\
  (forall r, out = Return r ->
     st' = st /\
     (r = sendJSON 400 (ErrorBody "Missing data") \/
      r = sendJSON 403 (ErrorBody "Invalid initData") \/
      r = sendJSON 429 (ErrorBody "Too fast"))).
Proof.
  unfold handleTap.
  destruct (destructure body) as [[[[uid name] delta] init]|];
    [|by intros [= <- <-]].
  destruct (negb (ToBoolean uid) || negb (ToBoolean delta)).
  { intros [= <- <-] _. split; [done|]. intros r [= <-]. auto. }
  destruct (validateInitData BOT_TOKEN init) as [[]|];
    [|intros [= <- <-] _; split; [done|]; intros r [= <-]; auto
     |by intros [= <- <-]].
  unfold checkRateLimit.
  destruct (_ <? 500); cbn.
  - intros [= <- <-] _. destruct st. split; [done|]. intros r [= <-]. auto.
  - destruct (safeCoins delta) as [safe|]; [|by intros [= <- <-]].
    destruct (getUser _ _ _) as [us1 [ref u]].
    intros [= <- <-] Hout. by destruct (Hout _ eq_refl).
Qed.

Lemma destructure_Return body uid name delta init :
  destructure body = Return (uid, name, delta, init) ->
  uid = property body "userId" /\ name = property body "userName" /\
  delta = property body "coins" /\ init = property body "initData".
Proof. destruct body; cbn; by intros [= <- <- <- <-]. Qed.

Lemma checkRateLimit_admitted limits now k limits' :
  checkRateLimit limits now k = (limits', true) ->
  limits' = Map_set limits k now.
Proof. unfold checkRateLimit. by destruct (_ <? 500); intros [= <-]. Qed.

Lemma checkRateLimit_refused limits now k limits' :
  checkRateLimit limits now k = (limits', false) -> limits' = limits.
Proof. unfold checkRateLimit. by destruct (_ <? 500); intros [= <-]. Qed.

Lemma checkRateLimit_throttled limits now k last :
  Map_get limits k = Some last -> now - last < 500 ->
  checkRateLimit limits now k = (limits, false).
Proof.
  intros Hget Hlt. unfold checkRateLimit. rewrite Hget.
  destruct (Z.eqb_spec last 0) as [->|_];
    by rewrite (proj2 (Z.ltb_lt _ _) Hlt).
Qed.
End Tap.

(** A sync that passes validation and the check of [initData]. *)
Lemma handleTap_at_limiter `{Platform} BOT_TOKEN body clock st :
  ToBoolean (property body "userId") = true ->
  ToBoolean (property body "coins") = true ->
  validateInitData BOT_TOKEN (property body "initData") = Return true ->
  match checkRateLimit (rateLimits st) (now_checkRateLimit clock)
          (property body "userId") with
  | (limits, true) =>
      rateLimits (handleTap BOT_TOKEN body clock st).1 = limits /\
      limits = Map_set (rateLimits st) (property body "userId")
                 (now_checkRateLimit clock)
  | (limits, false) =>
      handleTap BOT_TOKEN body clock st
      = (st, Return (sendJSON 429 (ErrorBody "Too fast")))
  end.
Proof.
  intros Huid Hdelta Hauth. unfold handleTap.
  rewrite (property_truthy _ _ Huid), Huid, Hdelta, Hauth. cbn [negb orb].
  destruct (checkRateLimit _ _ _) as [limits []] eqn:El; cbn.
  - split; [|by apply checkRateLimit_admitted in El].
    destruct (safeCoins _); [|done].
    by destruct (getUser _ _ _) as [us1 [ref u]].
  - apply checkRateLimit_refused in El as ->. by destruct st.
Qed.

(** The balance after an accepted sync of a number. *)
Lemma handleTap_accepted_number `{Platform} BOT_TOKEN body clock st st' r n :
  property body "coins" = VNum n ->
  handleTap BOT_TOKEN body clock st = (st', Return r) ->
  status r = 200 ->
  exists user,
    data r = UserBody user /\
    coins user
    = num_add (balance (users st) (property body "userId"))
        (num_of_Z (clamped_delta n)) /\
    (exists ref key, users st' !! ref = Some (key, user)) /\
    (SameValueZero (property body "userId") (property body "userId") = true ->
     Map_get (users st') (property body "userId") = Some user).
Proof.
  intros Hn Htap Hok.
  destruct (handleTap_accepted _ _ _ _ _ _ Htap Hok)
    as (uid & name & delta & init & safe & us1 & ref & u &
        Hd & _ & Hdelta & _ & _ & Hs & Hg & Hst' & ->).
  apply destructure_Return in Hd as (-> & _ & -> & _).
  rewrite Hn in Hdelta, Hs.
  rewrite (safeCoins_number _ (ToBoolean_number _ Hdelta)) in Hs.
  injection Hs as <-.
  destruct (getUser_lookup _ _ _ _ _ _ Hg) as [key Hkey].
  exists (merge name (num_of_Z (clamped_delta n)) (now_handleTap clock) u).
  split; [done|]. split; [|split].
  - cbn. by rewrite (getUser_balance _ _ _ _ _ _ Hg).
  - exists ref, key. rewrite Hst'. unfold store_at.
    by rewrite list_lookup_alter_eq, Hkey.
  - intros Hk. rewrite Hst'. by apply (getUser_store_at _ _ _ _ _ _ _ Hg).
Qed.

(** ** The clamp ceiling *)

(** Claim C1.  When [handleTap] accepts a sync whose [coins] is a
    number, the amount it adds to the balance of the user is that number
    floored and clamped into [[0, 50]]: the balance in the answer, which
    is the balance of the record in the store, is the balance before
    plus that amount; and for a number above 50 the amount is 50. *)
Theorem C1_accepted_delta_is_clamped `{Platform} BOT_TOKEN body clock st st' r n :
  property body "coins" = VNum n ->
  handleTap BOT_TOKEN body clock st = (st', Return r) ->
  status r = 200 ->
  let userId := property body "userId" in
  let before := balance (users st) userId in
  exists user,
    data r = UserBody user /\
    (exists ref key, users st' !! ref = Some (key, user)) /\
    (SameValueZero userId userId = true ->
     balance (users st') userId = coins user) /\
    coins user = num_add before (num_of_Z (clamped_delta n)) /\
    (forall c, before = num_of_Z c ->
               coins user = num_of_Z (c + clamped_delta n)) /\
    (num_lt (num_of_Z 50) n = true ->
     coins user = num_add before (num_of_Z 50)).
Proof.
  intros Hn Htap Hok. cbv zeta.
  destruct (handleTap_accepted_number _ _ _ _ _ _ _ Hn Htap Hok)
    as (user & Hdata & Hcoins & Hstore & Hget).
  exists user. repeat split; [done|done| |done| |].
  - intros Hk. unfold balance. by rewrite (Hget Hk).
  - intros c Hc. by rewrite Hcoins, <- num_add_of_Z, <- Hc.
  - intros Hceil. by rewrite Hcoins, (clamped_delta_ceiling _ Hceil).
Qed.

Lemma C1_accepted_delta_is_clamped_witness :
  exists st' r user,
    handleTap (H:=sample_platform) EmptyString
      (tap_body "u1" (VNum (num_of_Z 9999))) (at_time 1500) sample_state
    = (st', Return r) /\
    status r = 200 /\
    data r = UserBody user /\
    coins user = num_of_Z 80.
Proof.
  eexists _, _.
  destruct (C1_accepted_delta_is_clamped (H:=sample_platform) EmptyString
              (tap_body "u1" (VNum (num_of_Z 9999))) (at_time 1500)
              sample_state _ _ (num_of_Z 9999) eq_refl eq_refl eq_refl)
    as (user & Hdata & _ & _ & _ & Hexact & _).
  exists user. split; [reflexivity|]. split; [reflexivity|].
  split; [exact Hdata|]. exact (Hexact 30 eq_refl).
Defined.

(** ** Rejections leave the store alone *)

(** Claim C3.  Whenever [handleTap] ends otherwise than by accepting the
    sync, the users map is exactly as it was before the call: no record
    is made and none is changed.  When it answers the rejection (400 for
    missing data, 403 for the failed check of [initData], 429 for the
    rate limit) the whole state is as it was. *)
Theorem C3_rejection_leaves_store `{Platform} BOT_TOKEN body clock st st' out :
  handleTap BOT_TOKEN body clock st = (st', out) ->
  (forall r, out = Return r -> status r <> 200) ->
  users st' = users st /\
  (forall r, out = Return r ->
     st' = st /\
     (r = sendJSON 400 (ErrorBody "Missing data") \/
      r = sendJSON 403 (ErrorBody "Invalid initData") \/
      r = sendJSON 429 (ErrorBody "Too fast"))).
Proof. apply handleTap_rejected. Qed.

Lemma C3_rejection_leaves_store_witness :
  (handleTap (H:=sample_platform) EmptyString
     (tap_body "u1" (VNum (num_of_Z 30))) (at_time 1200) sample_state).2
  = Return (sendJSON 429 (ErrorBody "Too fast")) /\
  users (handleTap (H:=sample_platform) EmptyString
           (tap_body "u1" (VNum (num_of_Z 30))) (at_time 1200) sample_state).1
  = users sample_state.
Proof.
  split; [reflexivity|].
  refine (proj1 (C3_rejection_leaves_store (H:=sample_platform) EmptyString
                   (tap_body "u1" (VNum (num_of_Z 30))) (at_time 1200)
                   sample_state _ _ (surjective_pairing _) _)).
  intros r [= <-]. discriminate.
Defined.

(** ** The cooldown window *)

(** Claim C5.  Take a sync that passes validation and the check of
    [initData] and that the limiter admits, and a second sync for the
    same user, the user being the same when the two [userId] are the
    same [Map] key.  If the second passes validation and the check of
    [initData] and its time is less than 500 ms after the time at which
    the first was admitted, it is answered 429 and the state, so every
    balance, is as the first sync left it. *)
Theorem C5_second_sync_in_cooldown_is_throttled `{Platform} BOT_TOKEN
    body1 clock1 st0 body2 clock2 :
  ToBoolean (property body1 "userId") = true ->
  ToBoolean (property body1 "coins") = true ->
  validateInitData BOT_TOKEN (property body1 "initData") = Return true ->
  (checkRateLimit (rateLimits st0) (now_checkRateLimit clock1)
     (property body1 "userId")).2 = true ->
  SameValueZero (property body1 "userId") (property body2 "userId") = true ->
  ToBoolean (property body2 "userId") = true ->
  ToBoolean (property body2 "coins") = true ->
  validateInitData BOT_TOKEN (property body2 "initData") = Return true ->
  now_checkRateLimit clock2 - now_checkRateLimit clock1 < 500 ->
  handleTap BOT_TOKEN body2 clock2 (handleTap BOT_TOKEN body1 clock1 st0).1
  = ((handleTap BOT_TOKEN body1 clock1 st0).1,
     Return (sendJSON 429 (ErrorBody "Too fast"))).
Proof.
  intros Huid1 Hdelta1 Hauth1 Hadmit Hsame Huid2 Hdelta2 Hauth2 Hsoon.
  pose proof (handleTap_at_limiter _ _ clock1 st0 Huid1 Hdelta1 Hauth1) as Hfirst.
  destruct (checkRateLimit (rateLimits st0) _ _) as [limits admitted].
  cbn in Hadmit. subst admitted. destruct Hfirst as [Hlimits ->].
  pose proof (handleTap_at_limiter _ _ clock2
                (handleTap BOT_TOKEN body1 clock1 st0).1
                Huid2 Hdelta2 Hauth2) as Hsecond.
  rewrite (checkRateLimit_throttled _ _ _ (now_checkRateLimit clock1))
    in Hsecond; [done| |done].
  rewrite Hlimits. by apply Map_get_set.
Qed.

Lemma C5_second_sync_in_cooldown_is_throttled_witness :
  handleTap (H:=sample_platform) EmptyString
    (tap_body "u1" (VNum (num_of_Z 30))) (at_time 1499) sample_state
  = (sample_state, Return (sendJSON 429 (ErrorBody "Too fast"))).
Proof.
  refine (C5_second_sync_in_cooldown_is_throttled (H:=sample_platform)
            EmptyString
            (tap_body "u1" (VNum (num_of_Z 30))) (at_time 1000) initial
            (tap_body "u1" (VNum (num_of_Z 30))) (at_time 1499)
            eq_refl eq_refl eq_refl eq_refl eq_refl eq_refl eq_refl eq_refl _).
  cbn. lia.
Defined.

(** ** When the limiter records an attempt *)

(** Claim C9, as stated, fails: with a token configured, the sync
    [{userId: "u1", coins: 30, initData: {}}] at time 1000 on the
    initial state fails the check of [initData], is answered 403 before
    the limiter is consulted, and leaves no timestamp for ["u1"]. *)
Lemma C9_timestamp_not_advanced_on_auth_failure :
  ~ exists P : Platform,
      forall BOT_TOKEN body clock st,
        ToBoolean (property body "userId") = true ->
        ToBoolean (property body "coins") = true ->
        Map_get (rateLimits (handleTap BOT_TOKEN body clock st).1)
          (property body "userId")
        = Some (now_checkRateLimit clock).
Proof.
  intros [P Hclaim].
  specialize (Hclaim "secret"%string
                (signed_tap_body "u1" (VNum (num_of_Z 30)) (VObj []))
                (at_time 1000) initial eq_refl eq_refl).
  discriminate Hclaim.
Qed.

(** Claim C9, amended.  When a sync attempt passes validation and the
    check of [initData] and the limiter admits it, the limiter's map
    becomes the old one with the attempt's time set for the [userId],
    whether [handleTap] then accepts the sync or throws, and that time
    is what the map then holds for a [userId] that is not an array or
    object.  When [handleTap] answers a rejection (400, 403 or 429) the
    limiter's map is as it was. *)
Theorem C9_timestamp_advances_on_admission `{Platform} BOT_TOKEN body clock st :
  (ToBoolean (property body "userId") = true ->
   ToBoolean (property body "coins") = true ->
   validateInitData BOT_TOKEN (property body "initData") = Return true ->
   (checkRateLimit (rateLimits st) (now_checkRateLimit clock)
      (property body "userId")).2 = true ->
   rateLimits (handleTap BOT_TOKEN body clock st).1
   = Map_set (rateLimits st) (property body "userId") (now_checkRateLimit clock) /\
   (SameValueZero (property body "userId") (property body "userId") = true ->
    Map_get (rateLimits (handleTap BOT_TOKEN body clock st).1)
      (property body "userId")
    = Some (now_checkRateLimit clock))) /\
  (forall r,
     (handleTap BOT_TOKEN body clock st).2 = Return r -> status r <> 200 ->
     rateLimits (handleTap BOT_TOKEN body clock st).1 = rateLimits st).
Proof.
  split.
  - intros Huid Hdelta Hauth Hadmit.
    pose proof (handleTap_at_limiter _ _ clock st Huid Hdelta Hauth) as Hl.
    destruct (checkRateLimit _ _ _) as [limits admitted].
    cbn in Hadmit. subst admitted. destruct Hl as [Hlimits ->].
    split; [done|]. intros Hkey. rewrite Hlimits. by apply Map_get_set.
  - intros r Hout Hr.
    destruct (handleTap BOT_TOKEN body clock st) as [st' out] eqn:Htap.
    cbn in *. subst out.
    destruct (handleTap_rejected _ _ _ _ _ _ Htap) as [_ Hst].
    + by intros ? [= <-].
    + by destruct (Hst r eq_refl) as [-> _].
Qed.

Lemma C9_timestamp_advances_on_admission_witness :
  Map_get
    (rateLimits
       (handleTap (H:=sample_platform) EmptyString
          (tap_body "u1" (VObj [("toString"%string, VNull)]))
          (at_time 1000) initial).1)
    (VStr "u1")
  = Some 1000 /\
  rateLimits
    (handleTap (H:=sample_platform) EmptyString
       (tap_body "u1" (VNum (num_of_Z 30))) (at_time 1200) sample_state).1
  = rateLimits sample_state.
Proof.
  split.
  - refine (proj2 (proj1 (C9_timestamp_advances_on_admission
                            (H:=sample_platform) EmptyString
                            (tap_body "u1" (VObj [("toString"%string, VNull)]))
                            (at_time 1000) initial)
                     eq_refl eq_refl eq_refl eq_refl) eq_refl).
  - refine (proj2 (C9_timestamp_advances_on_admission
                     (H:=sample_platform) EmptyString
                     (tap_body "u1" (VNum (num_of_Z 30)))
                     (at_time 1200) sample_state) _ eq_refl _).
    discriminate.
Defined.

(** ** Falsy and negative deltas *)

Section Balances.
Context `{Platform} (BOT_TOKEN : string).

(** Every balance of a reachable state is [NaN] or counts coins. *)
Lemma reachable_coins st :
  reachable BOT_TOKEN st ->
  Forall (fun e => coins e.2 = NaN \/ is_count (coins e.2)) (users st).
Proof.
  apply (reachable_preserves BOT_TOKEN
           (fun u => coins u = NaN \/ is_count (coins u))).
  - intros k now. right. by exists 0.
  - intros name delta safe now u Hsafe Hu. cbn.
    destruct (safeCoins_range _ _ Hsafe) as [->|(k & Hk & ->)].
    { left. by destruct (coins u). }
    destruct Hu as [->|(c & Hc & ->)]; [by left|].
    right. exists (c + k). rewrite num_add_of_Z. split; [lia|done].
Qed.

Lemma reachable_balance st k :
  reachable BOT_TOKEN st ->
  balance (users st) k = NaN \/ is_count (balance (users st) k).
Proof.
  intros Hst%reachable_coins. unfold balance, Map_get.
  destruct (Map_find (users st) k) as [[i u]|] eqn:E; cbn.
  - destruct (Map_find_lookup _ _ _ _ E) as (k' & Hk' & _).
    apply (Forall_lookup_1 _ _ _ _ Hst Hk').
  - right. by exists 0.
Qed.

Lemma num_add_zero n :
  n = NaN \/ is_count n -> num_add n (num_of_Z 0) = n.
Proof.
  intros [->|(c & _ & ->)]; [done|]. by rewrite num_add_of_Z, Z.add_0_r.
Qed.

Lemma negative_truthy n : num_lt n (num_of_Z 0) = true -> ToBoolean (VNum n) = true.
Proof.
  destruct n as [| | |q]; try done. intros Hq%num_lt_Finite. cbn.
  apply negb_true_iff, Z.eqb_neq. intros Hz.
  unfold Qlt in Hq. cbn in Hq. lia.
Qed.
End Balances.

(** Claim C2, as stated, fails: with no token configured, the sync
    [{userId: "u1", coins: -5}] at time 1000 on the initial state is
    answered 200, not 400. *)
Lemma C2_negative_coins_not_rejected :
  ~ exists P : Platform,
      forall BOT_TOKEN body clock st,
        not_positive_or_not_numeric (property body "coins") = true ->
        status (serve BOT_TOKEN (POST_tap (Some body) clock) st).2 = 400 /\
        users (serve BOT_TOKEN (POST_tap (Some body) clock) st).1 = users st.
Proof.
  intros [P Hclaim].
  destruct (Hclaim EmptyString (tap_body "u1" (VNum (num_of_Z (-5))))
              (at_time 1000) initial eq_refl) as [Hstatus _].
  discriminate Hstatus.
Qed.

(** Claim C2, amended.  A sync whose [coins] is falsy (0, [NaN], [null],
    [false], the empty string, or absent) is answered 400 and leaves the
    whole state unchanged.  A negative [coins] next to a [userId] is not
    answered "Missing data": the sync goes on to the check of [initData]
    and to the limiter, and when it is accepted, in a state the server
    can reach, the balance of the user is as it was. *)
Theorem C2_falsy_coins_rejected_negative_clamped `{Platform} BOT_TOKEN body clock st :
  (ToBoolean (property body "coins") = false ->
   (serve BOT_TOKEN (POST_tap (Some body) clock) st).1 = st /\
   status (serve BOT_TOKEN (POST_tap (Some body) clock) st).2 = 400) /\
  (forall n,
     property body "coins" = VNum n -> num_lt n (num_of_Z 0) = true ->
     ToBoolean (property body "userId") = true ->
     (handleTap BOT_TOKEN body clock st).2
     <> Return (sendJSON 400 (ErrorBody "Missing data")) /\
     (forall st' r,
        reachable BOT_TOKEN st ->
        handleTap BOT_TOKEN body clock st = (st', Return r) -> status r = 200 ->
        exists user,
          data r = UserBody user /\
          coins user = balance (users st) (property body "userId") /\
          (SameValueZero (property body "userId") (property body "userId") = true ->
           balance (users st') (property body "userId")
           = balance (users st) (property body "userId")))).
Proof.
  split.
  - intros Hfalsy. cbn. unfold handleTap.
    destruct (destructure body) as [[[[uid name] delta] init]|] eqn:Hd; [|done].
    apply destructure_Return in Hd as (_ & _ & -> & _).
    by rewrite Hfalsy, orb_true_r.
  - intros n Hn Hneg Huid. split.
    + unfold handleTap.
      rewrite (property_truthy _ _ Huid), Huid, Hn, (negative_truthy _ Hneg).
      cbn [negb orb].
      destruct (validateInitData _ _) as [[]|]; [|done|done].
      destruct (checkRateLimit _ _ _) as [limits []]; [|done].
      cbv zeta. cbn [negb].
      rewrite (safeCoins_number _ (ToBoolean_number _ (negative_truthy _ Hneg))).
      by destruct (getUser _ _ _) as [us1 [ref u]].
    + intros st' r Hst Htap Hok.
      destruct (handleTap_accepted_number _ _ _ _ _ _ _ Hn Htap Hok)
        as (user & Hdata & Hcoins & _ & Hget).
      assert (coins user = balance (users st) (property body "userId")) as Hsame.
      { rewrite Hcoins, (clamped_delta_negative _ Hneg).
        apply num_add_zero. by apply (reachable_balance BOT_TOKEN). }
      exists user. split; [done|]. split; [done|].
      intros Hk. unfold balance at 1. by rewrite (Hget Hk).
Qed.

Lemma C2_falsy_coins_rejected_negative_clamped_witness :
  ((serve (H:=sample_platform) EmptyString
      (POST_tap (Some (tap_body "u1" (VNum (num_of_Z 0)))) (at_time 2000))
      sample_state).1 = sample_state /\
   status (serve (H:=sample_platform) EmptyString
             (POST_tap (Some (tap_body "u1" (VNum (num_of_Z 0)))) (at_time 2000))
             sample_state).2 = 400) /\
  exists st' r user,
    handleTap (H:=sample_platform) EmptyString
      (tap_body "u1" (VNum (num_of_Z (-5)))) (at_time 2000) sample_state
    = (st', Return r) /\
    status r = 200 /\ data r = UserBody user /\ coins user = num_of_Z 30 /\
    balance (users st') (VStr "u1") = num_of_Z 30.
Proof.
  split.
  - exact (proj1 (C2_falsy_coins_rejected_negative_clamped
                    (H:=sample_platform) EmptyString
                    (tap_body "u1" (VNum (num_of_Z 0))) (at_time 2000)
                    sample_state) eq_refl).
  - eexists _, _.
    destruct (proj2 (proj2 (C2_falsy_coins_rejected_negative_clamped
                              (H:=sample_platform) EmptyString
                              (tap_body "u1" (VNum (num_of_Z (-5))))
                              (at_time 2000) sample_state)
                       (num_of_Z (-5)) eq_refl eq_refl eq_refl)
                _ _ (reachable_serve _ _ _ (reachable_initial _))
                eq_refl eq_refl)
      as (user & Hdata & Hcoins & Hbalance).
    exists user. split; [reflexivity|]. split; [reflexivity|].
    split; [exact Hdata|]. split; [exact Hcoins|]. exact (Hbalance eq_refl).
Defined.

(** ** The check of initData *)

(** Claim C7.  [validateInitData] returns [true] whenever no token is
    configured or no payload is supplied.  With a token configured it
    returns [false] for every malformed payload: one that the parser
    throws on, or one without the [hash] field.  It never throws. *)
Theorem C7_validateInitData_policy `{Platform} BOT_TOKEN initData :
  (BOT_TOKEN = EmptyString \/ ToBoolean initData = false ->
   validateInitData BOT_TOKEN initData = Return true) /\
  (BOT_TOKEN <> EmptyString -> ToBoolean initData = true ->
   malformed initData ->
   validateInitData BOT_TOKEN initData = Return false) /\
  (exists verdict, validateInitData BOT_TOKEN initData = Return verdict).
Proof.
  unfold validateInitData. repeat split.
  - intros [-> | ->]; [done|]. by rewrite orb_true_r.
  - intros Htoken Hdata Hbad. rewrite Hdata.
    destruct BOT_TOKEN; [done|]. cbn [ToBoolean negb orb String.eqb].
    unfold check_hash. unfold malformed in Hbad.
    destruct (URLSearchParams initData) as [params|]; [|done].
    cbn [bind]. by rewrite Hbad.
  - destruct (negb _ || negb _); [by eexists|].
    destruct (check_hash _ _) as [verdict|]; by eexists.
Qed.

Lemma C7_validateInitData_policy_witness :
  validateInitData (H:=sample_platform) EmptyString (VStr "user=1&hash=00")
  = Return true /\
  validateInitData (H:=sample_platform) "secret" (VObj [])
  = Return false /\
  validateInitData (H:=sample_platform) "secret" (VArr [VNum (num_of_Z 1)])
  = Return false.
Proof.
  split; [|split].
  - exact (proj1 (C7_validateInitData_policy (H:=sample_platform)
                    EmptyString (VStr "user=1&hash=00"))
             (or_introl eq_refl)).
  - refine (proj1 (proj2 (C7_validateInitData_policy (H:=sample_platform)
                            "secret" (VObj []))) _ eq_refl eq_refl).
    discriminate.
  - refine (proj1 (proj2 (C7_validateInitData_policy (H:=sample_platform)
                            "secret" (VArr [VNum (num_of_Z 1)]))) _ eq_refl I).
    discriminate.
Defined.

(** ** A delta that is not a number *)

(** Claim C6, where the code breaks it.  With no token configured,
    ["u1"] syncs 30 coins at time 1000 and then sends
    [{userId: "u1", coins: {}}] at time 2000: the object is truthy, so
    the sync is accepted, [Math.floor] of it is [NaN], neither
    [Math.max] nor [Math.min] removes it, and the balance goes from 30
    to [NaN], which is no integer and stays [NaN] from then on. *)
Theorem C6_object_delta_turns_balance_into_NaN `{Platform} :
  balance
    (users (run EmptyString
              [POST_tap (Some (tap_body "u1" (VNum (num_of_Z 30)))) (at_time 1000)]
              initial))
    (VStr "u1")
  = num_of_Z 30 /\
  balance
    (users (run EmptyString
              [POST_tap (Some (tap_body "u1" (VNum (num_of_Z 30)))) (at_time 1000);
               POST_tap (Some (tap_body "u1" (VObj []))) (at_time 2000)]
              initial))
    (VStr "u1")
  = NaN /\
  forall safe, num_add NaN safe = NaN.
Proof. done. Qed.

(** What holds instead: a balance is never anything but [NaN] or a
    non-negative integer, and a sync whose clamped amount is a number
    does not decrease a balance that counts coins. *)
Lemma coins_count_unless_NaN `{Platform} BOT_TOKEN st e :
  reachable BOT_TOKEN st -> e ∈ users st ->
  coins e.2 = NaN \/ is_count (coins e.2).
Proof.
  intros Hst. revert e.
  apply (Forall_forall (fun e => coins e.2 = NaN \/ is_count (coins e.2))).
  by apply (reachable_coins BOT_TOKEN).
Qed.

Lemma merge_number_grows `{Platform} name delta safe now u c :
  safeCoins delta = Return safe -> safe <> NaN ->
  coins u = num_of_Z c ->
  exists k, 0 <= k <= 50 /\ coins (merge name safe now u) = num_of_Z (c + k).
Proof.
  intros Hsafe Hnum Hu.
  destruct (safeCoins_range _ _ Hsafe) as [->|(k & Hk & ->)]; [done|].
  exists k. split; [done|]. cbn. by rewrite Hu, num_add_of_Z.
Qed.

(** ** The leaderboard *)

(** Claim C8, where the code breaks it.  With no token configured,
    ["a"] syncs 10 coins, ["b"] sends [{userId: "b", coins: {}}] and
    ["c"] syncs 20 coins.  The balance of ["b"] is [NaN], every
    comparison with it yields [NaN], which the sort takes for a tie, and
    the leaderboard lists 10 before 20.  The defect is the one of claim
    C6. *)
Theorem C8_leaderboard_unsorted_after_NaN `{Platform} :
  board_coins
    (handleLeaderboard
       (run EmptyString
          [POST_tap (Some (tap_body "a" (VNum (num_of_Z 10)))) (at_time 1000);
           POST_tap (Some (tap_body "b" (VObj []))) (at_time 1000);
           POST_tap (Some (tap_body "c" (VNum (num_of_Z 20)))) (at_time 1000)]
          initial)).2
  = [num_of_Z 10; NaN; num_of_Z 20] /\
  ~ descending [num_of_Z 10; NaN; num_of_Z 20].
Proof.
  split; [done|]. intros Hsorted.
  apply StronglySorted_inv in Hsorted as [_ Hfirst].
  by apply Forall_cons in Hfirst as [Hnan _].
Qed.

(** What holds instead: the leaderboard never has more than 100
    entries, computing it changes nothing, and it is in descending
    order when no balance is [NaN]. *)
Lemma handleLeaderboard_read_only st : (handleLeaderboard st).1 = st.
Proof. done. Qed.

Lemma handleLeaderboard_at_most_100 st :
  (length (board_coins (handleLeaderboard st).2) <= 100)%nat.
Proof.
  unfold board_coins, handleLeaderboard. cbn.
  rewrite !length_fmap, length_take. lia.
Qed.

Section Sorting.
Lemma num_sub_positive a b :
  a <> NaN -> b <> NaN ->
  num_lt (num_of_Z 0) (num_sub b a) = num_lt a b.
Proof.
  intros Ha Hb. destruct a as [| | |x], b as [| | |y]; try done.
  apply eq_true_iff_eq. unfold num_of_Z. cbn [num_sub].
  rewrite !num_lt_Finite, Qred_correct. unfold inject_Z. split; lra.
Qed.

Lemma sort_insert_Forall {A} (P : A -> Prop) comparefn x l :
  P x -> Forall P l -> Forall P (sort_insert comparefn x l).
Proof.
  intros Hx. induction 1 as [|y l Hy Hl IH]; cbn [sort_insert].
  - by constructor.
  - destruct (num_lt (num_of_Z 0) (comparefn x y)).
    + by constructor.
    + constructor; [done|]. by constructor.
Qed.

Lemma sort_insert_sorted x l :
  coins x <> NaN -> Forall (fun u => coins u <> NaN) l ->
  StronglySorted ge_coins l ->
  StronglySorted ge_coins (sort_insert by_coins x l).
Proof.
  intros Hx Hl Hsorted.
  induction Hsorted as [|y l Hsorted IH Hy]; cbn [sort_insert].
  - repeat constructor.
  - apply Forall_cons in Hl as [Hny Hl].
    unfold by_coins at 1. rewrite (num_sub_positive _ _ Hx Hny).
    destruct (num_lt (coins x) (coins y)) eqn:Elt.
    + constructor; [by apply IH|].
      apply sort_insert_Forall; [|done].
      unfold ge_coins. rewrite num_ge_negb_lt by done.
      destruct (coins x) as [| | |p], (coins y) as [| | |q]; try done.
      apply num_lt_Finite in Elt. apply negb_true_iff, not_true_iff_false.
      rewrite num_lt_Finite. lra.
    + assert (ge_coins x y) as Hxy.
      { unfold ge_coins. by rewrite num_ge_negb_lt, Elt. }
      constructor; [by constructor|]. constructor; [done|].
      eapply Forall_impl; [exact Hy|]. intros z Hyz.
      by apply num_ge_trans with (coins y).
Qed.

Lemma Array_sort_Forall {A} (P : A -> Prop) comparefn l :
  Forall P l -> Forall P (Array_sort comparefn l).
Proof.
  induction 1 as [|x l Hx Hl IH]; [done|].
  change (Forall P (sort_insert comparefn x (Array_sort comparefn l))).
  by apply sort_insert_Forall.
Qed.

Lemma Array_sort_sorted l :
  Forall (fun u => coins u <> NaN) l ->
  StronglySorted ge_coins (Array_sort by_coins l).
Proof.
  induction 1 as [|x l Hx Hl IH]; [constructor|].
  change (StronglySorted ge_coins
            (sort_insert by_coins x (Array_sort by_coins l))).
  apply sort_insert_sorted; [done| |done].
  by apply Array_sort_Forall.
Qed.

Lemma StronglySorted_take {A} (R : A -> A -> Prop) n l :
  StronglySorted R l -> StronglySorted R (take n l).
Proof.
  intros Hl. revert n. induction Hl as [|x l Hl IH Hx]; intros [|n]; cbn;
    try constructor; [apply IH|by apply Forall_take].
Qed.

Lemma StronglySorted_fmap {A B} (f : A -> B) (R : B -> B -> Prop) l :
  StronglySorted (fun a b => R (f a) (f b)) l -> StronglySorted R (f <$> l).
Proof.
  induction 1 as [|x l Hl IH Hx]; cbn; constructor; [done|].
  by apply Forall_fmap.
Qed.

Lemma handleLeaderboard_descending st :
  Forall (fun e => coins e.2 <> NaN) (users st) ->
  descending (board_coins (handleLeaderboard st).2).
Proof.
  intros Hst. unfold descending, board_coins, handleLeaderboard. cbn.
  rewrite <- list_fmap_compose.
  apply StronglySorted_fmap, StronglySorted_take, Array_sort_sorted.
  unfold Map_values. by apply Forall_fmap.
Qed.
End Sorting.

(** ** The scenario of the specification

    ["u1"] is unknown: [GET /api/user/u1] answers a new record.  A sync
    of 30 coins gives a balance of 30 at level 1;  a second one at once
    is answered 429 and the balance stays 30;  after the cooldown a
    sync of 9999 coins is clamped to 50 and the balance is 80. *)
Lemma scenario_u1 `{Platform} :
  let tap reqCoins := Some (tap_body "u1" (VNum (num_of_Z reqCoins))) in
  let '(st1, res1) := serve EmptyString (GET_user "u1" 900) initial in
  let '(st2, res2) := serve EmptyString (POST_tap (tap 30) (at_time 1000)) st1 in
  let '(st3, res3) := serve EmptyString (POST_tap (tap 30) (at_time 1001)) st2 in
  let '(st4, res4) := serve EmptyString (POST_tap (tap 9999) (at_time 1500)) st3 in
  data res1 = UserBody (new_user (VStr "u1") 900) /\
  (status res2 = 200 /\ balance (users st2) (VStr "u1") = num_of_Z 30) /\
  (status res3 = 429 /\ st3 = st2) /\
  (status res4 = 200 /\ balance (users st4) (VStr "u1") = num_of_Z 80) /\
  level <$> Map_get (users st4) (VStr "u1") = Some 1.
Proof. by vm_compute. Qed.

(** ** More facts about Map *)

Section MapLookups.
Context {V : Type}.
Implicit Types (m : list (value * V)) (k : value) (v : V).

Lemma Map_find_app_l m l k i v :
  Map_find m k = Some (i, v) -> Map_find (m ++ l) k = Some (i, v).
Proof.
  revert i. induction m as [|[k0 v0] m IH]; intros i; cbn; [done|].
  destruct (SameValueZero k0 k); [done|].
  destruct (Map_find m k) as [[j w]|]; [|done].
  intros [= <- <-]. by rewrite (IH j eq_refl).
Qed.

Lemma Map_find_app_None m l k :
  Map_find m k = None ->
  Map_find (m ++ l) k
  = (fun e => (length m + e.1, e.2)%nat) <$> Map_find l k.
Proof.
  induction m as [|[k0 v0] m IH]; cbn.
  - intros _. by destruct (Map_find l k) as [[j w]|].
  - destruct (SameValueZero k0 k); [done|].
    destruct (Map_find m k) as [[j w]|]; [done|]. intros _.
    rewrite IH by done. by destruct (Map_find l k) as [[j w]|].
Qed.

(** No entry has a key that is not found. *)
Lemma Map_find_None m k i k' v :
  Map_find m k = None -> m !! i = Some (k', v) -> SameValueZero k' k = false.
Proof.
  revert i. induction m as [|[k0 v0] m IH]; intros i; cbn; [done|].
  destruct (SameValueZero k0 k) eqn:E; [done|].
  destruct (Map_find m k) as [[j w]|] eqn:Ef; [done|]. intros _.
  destruct i as [|i]; cbn; [by intros [= <- <-]|]. by apply IH.
Qed.

(** The entry found is the first one with the key. *)
Lemma Map_find_first m k i v j k' w :
  Map_find m k = Some (i, v) -> m !! j = Some (k', w) ->
  SameValueZero k' k = true -> (i <= j)%nat.
Proof.
  revert i j. induction m as [|[k0 v0] m IH]; intros i j; cbn; [done|].
  destruct (SameValueZero k0 k) eqn:E.
  - intros [= <- <-] _ _. lia.
  - destruct (Map_find m k) as [[i' w']|]; [|done]. intros [= <- <-].
    destruct j as [|j]; cbn.
    + intros [= <- <-] Hk. congruence.
    + intros Hj Hk. apply le_n_S. by apply (IH i' j).
Qed.

(** Rewriting the value at one position changes what is found there
    and nothing else. *)
Lemma Map_find_store m k j v' :
  Map_find (alter (fun e => (e.1, v')) j m) k
  = (fun e => (e.1, if decide (e.1 = j) then v' else e.2)) <$> Map_find m k.
Proof.
  revert j. induction m as [|[k0 v0] m IH]; intros j; [done|].
  destruct j as [|j]; cbn.
  - destruct (SameValueZero k0 k); [done|].
    by destruct (Map_find m k) as [[i w]|].
  - destruct (SameValueZero k0 k); [done|].
    rewrite IH. destruct (Map_find m k) as [[i w]|]; [|done]. cbn.
    by repeat case_decide; simplify_eq.
Qed.

Lemma Map_get_set_ne m k k' v :
  SameValueZero k k' = false -> Map_get (Map_set m k v) k' = Map_get m k'.
Proof.
  intros Hk. unfold Map_get.
  induction m as [|[k0 v0] m IH]; cbn; [by rewrite Hk|].
  destruct (SameValueZero k0 k) eqn:E; cbn.
  - destruct (SameValueZero k0 k') eqn:E'; [|done].
    rewrite SameValueZero_sym in E.
    by rewrite (SameValueZero_trans _ _ _ E E') in Hk.
  - destruct (SameValueZero k0 k'); [done|].
    destruct (Map_find (Map_set m k v) k') as [[i w]|],
             (Map_find m k') as [[i' w']|]; by simplify_eq/=.
Qed.
End MapLookups.

(** ** How the handlers change the maps *)

Section Steps.
Context `{Platform} (BOT_TOKEN : string).

Lemma getUser_cases us now k us1 ref u :
  getUser us now k = (us1, (ref, u)) ->
  (Map_find us k = Some (ref, u) /\ us1 = us) \/
  (Map_find us k = None /\ us1 = us ++ [(k, new_user k now)] /\
   ref = length us /\ u = new_user k now).
Proof.
  unfold getUser. destruct (Map_find us k) as [[i w]|] eqn:E;
    intros [= <- <- <-]; [by left|right].
  by rewrite (Map_set_fresh _ _ _ E).
Qed.

Lemma store_at_snoc us k u u' :
  store_at (length us) u' (us ++ [(k, u)]) = us ++ [(k, u')].
Proof.
  unfold store_at. induction us as [|e us IH]; cbn; [done|]. by rewrite IH.
Qed.

(** [handleTap] leaves the users alone or changes them for its
    [userId], which is then truthy. *)
Lemma handleTap_users body clock st :
  users (handleTap BOT_TOKEN body clock st).1 = users st \/
  (ToBoolean (property body "userId") = true /\
   users_change (property body "userId") (users st)
     (users (handleTap BOT_TOKEN body clock st).1)).
Proof.
  unfold handleTap.
  destruct (destructure body) as [[[[uid name] delta] init]|] eqn:Hd;
    [|by left].
  apply destructure_Return in Hd as (-> & -> & -> & ->).
  destruct (ToBoolean (property body "userId")) eqn:Huid; [|by left].
  destruct (ToBoolean (property body "coins")); [|by left]. cbn [negb orb].
  destruct (validateInitData _ _) as [[]|]; [|by left|by left].
  destruct (checkRateLimit _ _ _) as [limits []]; [|by left]. cbn.
  destruct (safeCoins _) as [safe|] eqn:Es; [|by left].
  destruct (getUser _ _ _) as [us1 [ref u]] eqn:Eg. cbn.
  right. split; [done|].
  destruct (getUser_cases _ _ _ _ _ _ Eg) as [[Hf ->]|(Hf & -> & -> & ->)].
  - by eapply change_merge.
  - rewrite store_at_snoc. by eapply change_new_merge.
Qed.

(** A request leaves the users alone or changes them for its subject,
    a key that is truthy or a string. *)
Lemma serve_users req st :
  users (serve BOT_TOKEN req st).1 = users st \/
  exists k,
    subject req = Some k /\
    (ToBoolean k = true \/ k = VStr EmptyString) /\
    users_change k (users st) (users (serve BOT_TOKEN req st).1).
Proof.
  destruct req as [id now|[body|] clk|]; cbn [serve]; [| |by left|by left].
  - unfold handleGetUser.
    destruct (getUser _ _ _) as [us1 [ref u]] eqn:Eg. cbn.
    destruct (getUser_cases _ _ _ _ _ _ Eg) as [[Hf ->]|(Hf & -> & -> & ->)];
      [by left|right].
    exists (VStr id). split; [done|]. split; [|by eapply change_new].
    destruct id; [by right|by left].
  - destruct (handleTap_users body clk st) as [Hsame|[Huid Hchange]].
    + left. by destruct (handleTap _ _ _ _) as [st' [res|e]].
    + right. exists (property body "userId"). split; [done|].
      split; [by left|].
      by destruct (handleTap _ _ _ _) as [st' [res|e]].
Qed.
End Steps.

(** ** One record for each userId *)

Section StoreOrder.
Context `{Platform} (BOT_TOKEN : string).

Lemma users_change_ok k0 us us' :
  ToBoolean k0 = true \/ k0 = VStr EmptyString ->
  users_change k0 us us' -> store_ok us -> store_ok us'.
Proof.
  intros Hk0 Hchange Hok.
  assert (forall u', userId u' = k0 -> Map_find us k0 = None ->
                     store_ok (us ++ [(k0, u')])) as Hnew.
  { intros u' Hu' Hnone i k u Hi.
    apply lookup_snoc_Some in Hi as [[Hlt Hi]|[-> [= <- <-]]].
    - destruct (Hok i k u Hi) as (Hid & Hkey & Hfind).
      repeat split; [done|done|]. intros Hk. by apply Map_find_app_l, Hfind.
    - repeat split; [done|done|]. intros Hk. by apply Map_find_snoc. }
  destruct Hchange as [i0 u0 name delta safe now Hf _ ->|now Hf ->
                      |name delta safe now now' Hf _ ->];
    [|by apply Hnew|by apply Hnew].
  intros i k u Hi. unfold store_at in *.
  destruct (decide (i = i0)) as [->|Hne].
  - rewrite list_lookup_alter_eq in Hi.
    destruct (us !! i0) as [[k1 u1]|] eqn:Hi0; [|done].
    cbn in Hi. injection Hi as <- <-.
    destruct (Map_find_lookup _ _ _ _ Hf) as (k2 & Hk2 & _).
    rewrite Hi0 in Hk2. injection Hk2 as <- <-.
    destruct (Hok i0 k1 u1 Hi0) as (Hid & Hkey & Hfind).
    repeat split; [done|done|]. intros Hk.
    rewrite Map_find_store, (Hfind Hk). cbn. by rewrite decide_True.
  - rewrite list_lookup_alter_ne in Hi by done.
    destruct (Hok i k u Hi) as (Hid & Hkey & Hfind).
    repeat split; [done|done|]. intros Hk.
    rewrite Map_find_store, (Hfind Hk). cbn. by rewrite decide_False.
Qed.

Lemma reachable_store_ok st : reachable BOT_TOKEN st -> store_ok (users st).
Proof.
  induction 1 as [|st req _ IH]; [by intros i k u|].
  destruct (serve_users BOT_TOKEN req st) as [->|(k & _ & Hk & Hchange)];
    [done|].
  by apply (users_change_ok k (users st)).
Qed.
End StoreOrder.

(** ** Extra properties: the store *)

(** Property X1.  [GET /api/user/:id] for an id the users do not have
    adds the default record at the end of the users and answers it; for
    an id they have it answers the record and changes nothing; and
    asking again, at any time, gives the same answer and changes
    nothing. *)
Theorem X1_get_user_creates_once id now later st :
  (Map_get (users st) (VStr id) = None ->
   handleGetUser id now st
   = ({| users := users st ++ [(VStr id, new_user (VStr id) now)];
         rateLimits := rateLimits st |},
      sendJSON 200 (UserBody (new_user (VStr id) now)))) /\
  (forall u, Map_get (users st) (VStr id) = Some u ->
             handleGetUser id now st = (st, sendJSON 200 (UserBody u))) /\
  handleGetUser id later (handleGetUser id now st).1
  = ((handleGetUser id now st).1, (handleGetUser id now st).2).
Proof.
  assert (forall st' u, Map_get (users st') (VStr id) = Some u ->
            handleGetUser id later st' = (st', sendJSON 200 (UserBody u)) /\
            handleGetUser id now st' = (st', sendJSON 200 (UserBody u)))
    as Hknown.
  { intros st' u. unfold handleGetUser, getUser, Map_get.
    destruct (Map_find (users st') (VStr id)) as [[i w]|]; [|done].
    intros [= ->]. by destruct st'. }
  assert (Map_get (users st) (VStr id) = None ->
          handleGetUser id now st
          = ({| users := users st ++ [(VStr id, new_user (VStr id) now)];
                rateLimits := rateLimits st |},
             sendJSON 200 (UserBody (new_user (VStr id) now)))) as Hnew.
  { unfold handleGetUser, getUser, Map_get.
    destruct (Map_find (users st) (VStr id)) as [[i w]|] eqn:E; [done|].
    intros _. by rewrite (Map_set_fresh _ _ _ E). }
  split; [done|]. split; [intros u Hu; by apply Hknown|].
  destruct (Map_get (users st) (VStr id)) as [u|] eqn:E.
  - destruct (Hknown st u E) as [_ ->]. cbn. by apply Hknown.
  - rewrite (Hnew eq_refl). cbn. apply Hknown. cbn. unfold Map_get in *.
    destruct (Map_find (users st) (VStr id)) as [[i w]|] eqn:Ef; [done|].
    rewrite (Map_find_snoc _ _ _ Ef); [done|]. cbn. apply String.eqb_refl.
Qed.

Lemma X1_get_user_creates_once_witness :
  handleGetUser "u2" 2000 sample_state
  = ({| users := users sample_state ++ [(VStr "u2", new_user (VStr "u2") 2000)];
        rateLimits := rateLimits sample_state |},
     sendJSON 200 (UserBody (new_user (VStr "u2") 2000))) /\
  exists u, handleGetUser "u1" 2000 sample_state
            = (sample_state, sendJSON 200 (UserBody u)).
Proof.
  split.
  - exact (proj1 (X1_get_user_creates_once "u2" 2000 2000 sample_state) eq_refl).
  - eexists.
    exact (proj1 (proj2 (X1_get_user_creates_once "u1" 2000 2000 sample_state))
             _ eq_refl).
Defined.

(** Property X2.  In every state the server can reach, each entry of
    the users holds a record whose [userId] is the key of the entry;
    the key is truthy or the empty string; and unless the key is an
    array or object, looking it up gives this record, and no other
    entry has the same key. *)
Theorem X2_one_record_per_userId `{Platform} BOT_TOKEN st i k u :
  reachable BOT_TOKEN st ->
  users st !! i = Some (k, u) ->
  userId u = k /\
  (ToBoolean k = true \/ k = VStr EmptyString) /\
  (SameValueZero k k = true ->
   Map_get (users st) k = Some u /\
   forall j k' u', users st !! j = Some (k', u') ->
                   SameValueZero k k' = true -> j = i).
Proof.
  intros Hst Hi. pose proof (reachable_store_ok BOT_TOKEN st Hst) as Hok.
  destruct (Hok i k u Hi) as (Hid & Hkey & Hfind).
  split; [done|]. split; [done|]. intros Hk.
  split; [unfold Map_get; by rewrite Hfind|].
  intros j k' u' Hj Hkk'.
  assert (SameValueZero k' k = true) as Hk'k by by rewrite SameValueZero_sym.
  assert (SameValueZero k' k' = true) as Hk'
    by by apply (SameValueZero_trans _ k).
  destruct (Hok j k' u' Hj) as (_ & _ & Hfind').
  pose proof (Map_find_first _ _ _ _ _ _ _ (Hfind Hk) Hj Hk'k).
  pose proof (Map_find_first _ _ _ _ _ _ _ (Hfind' Hk') Hi Hkk'). lia.
Qed.

Lemma X2_one_record_per_userId_witness :
  exists u,
    users sample_state !! 0%nat = Some (VStr "u1", u) /\
    userId u = VStr "u1" /\
    Map_get (users sample_state) (VStr "u1") = Some u.
Proof.
  eexists. split; [reflexivity|].
  destruct (X2_one_record_per_userId (H:=sample_platform) EmptyString
              sample_state 0 (VStr "u1") _
              (reachable_serve _ _ _ (reachable_initial _)) eq_refl)
    as (Hid & _ & Hfind).
  split; [exact Hid|]. exact (proj1 (Hfind eq_refl)).
Defined.

Lemma calculateLevel_range c : 1 <= calculateLevel c <= 5.
Proof.
  unfold calculateLevel.
  repeat match goal with |- context [num_ge c ?t] => destruct (num_ge c t) end;
    lia.
Qed.

(** Property X3.  In every state the server can reach, each record has
    [tapPower] 1, a level from 1 to 5 and a truthy [userName]: a sync
    never changes [tapPower], and it replaces the name only by a truthy
    one. *)
Theorem X3_record_fields `{Platform} BOT_TOKEN st e :
  reachable BOT_TOKEN st -> e ∈ users st ->
  tapPower e.2 = 1 /\ 1 <= level e.2 <= 5 /\ ToBoolean (userName e.2) = true.
Proof.
  intros Hst. revert e.
  apply (Forall_forall
           (fun e => tapPower e.2 = 1 /\ 1 <= level e.2 <= 5 /\
                     ToBoolean (userName e.2) = true)).
  apply (reachable_preserves BOT_TOKEN
           (fun u => tapPower u = 1 /\ 1 <= level u <= 5 /\
                     ToBoolean (userName u) = true)); [done| |done].
  intros name delta safe now u _ (Hpower & _ & Hname). cbn.
  split; [done|]. split; [apply calculateLevel_range|].
  by destruct (ToBoolean name) eqn:E.
Qed.

Lemma X3_record_fields_witness :
  Forall (fun e => tapPower e.2 = 1 /\ 1 <= level e.2 <= 5 /\
                   ToBoolean (userName e.2) = true)
    (users sample_state).
Proof.
  apply Forall_forall. intros e He.
  apply (X3_record_fields (H:=sample_platform) EmptyString sample_state e);
    [apply reachable_serve, reachable_initial|exact He].
Defined.

(** ** Extra properties: what a request leaves alone *)

Section Frames.
Context `{Platform} (BOT_TOKEN : string).

Lemma Map_keys_store {V} i (v : V) (m : list (value * V)) :
  Map_keys (alter (fun e => (e.1, v)) i m) = Map_keys m.
Proof.
  unfold Map_keys. revert i.
  induction m as [|e m IH]; intros [|i]; cbn; [done|done|done|].
  by rewrite IH.
Qed.

Lemma Map_keys_set {V} (m : list (value * V)) k v :
  Map_keys m `prefix_of` Map_keys (Map_set m k v).
Proof.
  unfold Map_keys. induction m as [|[k0 v0] m IH]; cbn.
  - apply prefix_nil.
  - destruct (SameValueZero k0 k); cbn; [done|]. by apply prefix_cons.
Qed.

Lemma users_change_keys k us us' :
  users_change k us us' -> Map_keys us `prefix_of` Map_keys us'.
Proof.
  intros [i u name delta safe now _ _ ->|now _ ->|name delta safe now now' _ _ ->].
  - unfold store_at. by rewrite Map_keys_store.
  - unfold Map_keys. rewrite fmap_app. by apply prefix_app_r.
  - unfold Map_keys. rewrite fmap_app. by apply prefix_app_r.
Qed.

(** [handleTap] leaves the limiter alone or sets the time of its
    [userId]. *)
Lemma handleTap_limits body clock st :
  rateLimits (handleTap BOT_TOKEN body clock st).1 = rateLimits st \/
  rateLimits (handleTap BOT_TOKEN body clock st).1
  = Map_set (rateLimits st) (property body "userId") (now_checkRateLimit clock).
Proof.
  unfold handleTap.
  destruct (destructure body) as [[[[uid name] delta] init]|] eqn:Hd;
    [|by left].
  apply destructure_Return in Hd as (-> & -> & -> & ->).
  destruct (negb _ || negb _); [by left|].
  destruct (validateInitData _ _) as [[]|]; [|by left|by left].
  unfold checkRateLimit. destruct (_ <? 500); cbn; [by left|right].
  destruct (safeCoins _) as [safe|]; [|done].
  by destruct (getUser _ _ _) as [us1 [ref u]].
Qed.

Lemma serve_limits req st :
  rateLimits (serve BOT_TOKEN req st).1 = rateLimits st \/
  exists k now,
    subject req = Some k /\
    rateLimits (serve BOT_TOKEN req st).1 = Map_set (rateLimits st) k now.
Proof.
  destruct req as [id now|[body|] clk|]; cbn [serve]; [| |by left|by left].
  - left. unfold handleGetUser. by destruct (getUser _ _ _) as [us1 [ref u]].
  - destruct (handleTap_limits body clk st) as [Hsame|Hset].
    + left. by destruct (handleTap _ _ _ _) as [st' [res|e]].
    + right. exists (property body "userId"), (now_checkRateLimit clk).
      split; [done|]. by destruct (handleTap _ _ _ _) as [st' [res|e]].
Qed.

Lemma users_change_other k us us' k' :
  users_change k us us' -> SameValueZero k k' = false ->
  Map_get us' k' = Map_get us k'.
Proof.
  intros Hchange Hk.
  assert (forall u', Map_find us k = None ->
                     Map_get (us ++ [(k, u')]) k' = Map_get us k') as Hnew.
  { intros u' Hnone. unfold Map_get.
    destruct (Map_find us k') as [[i w]|] eqn:E.
    - by rewrite (Map_find_app_l _ _ _ _ _ E).
    - rewrite (Map_find_app_None _ _ _ E). cbn. by rewrite Hk. }
  destruct Hchange as [i u name delta safe now Hf _ ->|now Hf ->
                      |name delta safe now now' Hf _ ->];
    [|by apply Hnew|by apply Hnew].
  unfold Map_get, store_at. rewrite Map_find_store.
  destruct (Map_find us k') as [[j w]|] eqn:E; [|done]. cbn.
  case_decide as Hj; [|done]. subst j. exfalso.
  destruct (Map_find_lookup _ _ _ _ Hf) as (k1 & Hk1 & Hk1k).
  destruct (Map_find_lookup _ _ _ _ E) as (k2 & Hk2 & Hk2k').
  rewrite Hk1 in Hk2. injection Hk2 as <- <-.
  rewrite SameValueZero_sym in Hk1k.
  by rewrite (SameValueZero_trans _ _ _ Hk1k Hk2k') in Hk.
Qed.
End Frames.

(** Property X4.  No request removes a user or a limiter entry or moves
    one: through any sequence of requests the keys of the users and the
    keys of the limiter stay where they are, new ones coming after
    them. *)
Theorem X4_maps_only_grow `{Platform} BOT_TOKEN reqs st :
  Map_keys (users st) `prefix_of` Map_keys (users (run BOT_TOKEN reqs st)) /\
  Map_keys (rateLimits st)
    `prefix_of` Map_keys (rateLimits (run BOT_TOKEN reqs st)).
Proof.
  revert st. induction reqs as [|req reqs IH]; intros st; [done|].
  change (run BOT_TOKEN (req :: reqs) st)
    with (run BOT_TOKEN reqs (serve BOT_TOKEN req st).1).
  destruct (IH (serve BOT_TOKEN req st).1) as [Husers Hlimits]. split.
  - etrans; [|exact Husers].
    destruct (serve_users BOT_TOKEN req st) as [->|(k & _ & _ & Hchange)];
      [done|]. by apply (users_change_keys k).
  - etrans; [|exact Hlimits].
    destruct (serve_limits BOT_TOKEN req st) as [->|(k & now & _ & ->)];
      [done|]. apply Map_keys_set.
Qed.

(** Property X5.  A request changes nothing for the other users: for
    every key that is not the key of the user the request is about, the
    record and the limiter's time found for it are the same after the
    request as before. *)
Theorem X5_other_users_untouched `{Platform} BOT_TOKEN req st k' :
  (forall k, subject req = Some k -> SameValueZero k k' = false) ->
  Map_get (users (serve BOT_TOKEN req st).1) k' = Map_get (users st) k' /\
  Map_get (rateLimits (serve BOT_TOKEN req st).1) k'
  = Map_get (rateLimits st) k'.
Proof.
  intros Hother. split.
  - destruct (serve_users BOT_TOKEN req st) as [->|(k & Hk & _ & Hchange)];
      [done|]. apply (users_change_other k); [done|]. by apply Hother.
  - destruct (serve_limits BOT_TOKEN req st) as [->|(k & now & Hk & ->)];
      [done|]. apply Map_get_set_ne. by apply Hother.
Qed.

Lemma X5_other_users_untouched_witness :
  Map_get
    (users (serve (H:=sample_platform) EmptyString
              (POST_tap (Some (tap_body "u2" (VNum (num_of_Z 7)))) (at_time 1000))
              sample_state).1)
    (VStr "u1")
  = Map_get (users sample_state) (VStr "u1").
Proof.
  refine (proj1 (X5_other_users_untouched (H:=sample_platform) EmptyString
                   (POST_tap (Some (tap_body "u2" (VNum (num_of_Z 7))))
                      (at_time 1000))
                   sample_state (VStr "u1") _)).
  intros k [= <-]. reflexivity.
Defined.

(** ** Extra properties: what a sync credits *)

(** Property X6.  Whatever a request sends as [coins] (a number, a
    string, a boolean, an array, an object), when [handleTap] accepts
    the sync the record it answers has the balance before plus an
    amount that is an integer from 0 to 50 or [NaN], the same for
    [totalTaps], the name sent when it is truthy and the old name
    otherwise, and the time of the merge as [lastTap]. *)
Theorem X6_accepted_sync_effect `{Platform} BOT_TOKEN body clock st st' r :
  handleTap BOT_TOKEN body clock st = (st', Return r) ->
  status r = 200 ->
  exists old safe,
    safeCoins (property body "coins") = Return safe /\
    (safe = NaN \/ exists k, 0 <= k <= 50 /\ safe = num_of_Z k) /\
    coins old = balance (users st) (property body "userId") /\
    data r
    = UserBody (merge (property body "userName") safe (now_handleTap clock) old) /\
    (SameValueZero (property body "userId") (property body "userId") = true ->
     Map_get (users st') (property body "userId")
     = Some (merge (property body "userName") safe (now_handleTap clock) old)).
Proof.
  intros Htap Hok.
  destruct (handleTap_accepted _ _ _ _ _ _ Htap Hok)
    as (uid & name & delta & init & safe & us1 & ref & u &
        Hd & _ & _ & _ & _ & Hs & Hg & Hst' & ->).
  apply destructure_Return in Hd as (-> & -> & -> & ->).
  exists u, safe. split; [done|]. split; [by apply (safeCoins_range _ _ Hs)|].
  split; [by apply (getUser_balance _ _ _ _ _ _ Hg)|]. split; [done|].
  intros Hk. rewrite Hst'. by apply (getUser_store_at _ _ _ _ _ _ _ Hg).
Qed.

Lemma X6_accepted_sync_effect_witness :
  exists st' r old safe,
    handleTap (H:=sample_platform) EmptyString
      (tap_body "u1" (VBool true)) (at_time 1500) sample_state
    = (st', Return r) /\
    safe = num_of_Z 1 /\
    data r = UserBody (merge VUndefined safe 1500 old) /\
    coins old = num_of_Z 30.
Proof.
  eexists _, _.
  destruct (X6_accepted_sync_effect (H:=sample_platform) EmptyString
              (tap_body "u1" (VBool true)) (at_time 1500) sample_state
              _ _ eq_refl eq_refl)
    as (old & safe & Hsafe & _ & Hold & Hdata & _).
  exists old, safe. split; [reflexivity|].
  split; [by injection Hsafe as <-|]. split; [exact Hdata|exact Hold].
Defined.

Section BalanceSteps.
Context `{Platform} (BOT_TOKEN : string).

(** One request keeps each entry in its place, its record as it was or
    with one delta merged. *)
Lemma users_change_at k us us' i key u :
  users_change k us us' -> us !! i = Some (key, u) ->
  exists u',
    us' !! i = Some (key, u') /\
    (u' = u \/
     exists name delta safe now,
       safeCoins delta = Return safe /\ u' = merge name safe now u).
Proof.
  intros [i0 u0 name delta safe now Hf Hs ->|now _ ->
         |name delta safe now now' _ _ ->] Hi.
  - unfold store_at. destruct (decide (i = i0)) as [->|Hne].
    + destruct (Map_find_lookup _ _ _ _ Hf) as (k1 & Hk1 & _).
      rewrite Hi in Hk1. injection Hk1 as <- <-.
      exists (merge name safe now u). rewrite list_lookup_alter_eq, Hi.
      split; [done|]. right. by exists name, delta, safe, now.
    + exists u. rewrite list_lookup_alter_ne by done. by split; [|left].
  - exists u. split; [|by left]. by apply lookup_app_l_Some.
  - exists u. split; [|by left]. by apply lookup_app_l_Some.
Qed.

Lemma merge_coins name delta safe now u :
  safeCoins delta = Return safe ->
  (coins u = NaN -> coins (merge name safe now u) = NaN) /\
  (forall c, coins u = num_of_Z c ->
             coins (merge name safe now u) = NaN \/
             exists d, 0 <= d <= 50 /\
                       coins (merge name safe now u) = num_of_Z (c + d)).
Proof.
  intros Hs. cbn. split; [by intros ->|]. intros c ->.
  destruct (safeCoins_range _ _ Hs) as [->|(d & Hd & ->)]; [by left|].
  right. exists d. by rewrite num_add_of_Z.
Qed.
End BalanceSteps.

(** What one request does to the record at a position. *)
Lemma serve_balance_step `{Platform} BOT_TOKEN req st i key u :
  users st !! i = Some (key, u) ->
  exists u',
    users (serve BOT_TOKEN req st).1 !! i = Some (key, u') /\
    (coins u = NaN -> coins u' = NaN) /\
    (forall c, coins u = num_of_Z c ->
               coins u' = NaN \/
               exists d, 0 <= d <= 50 /\ coins u' = num_of_Z (c + d)).
Proof.
  intros Hi.
  assert (forall c, coins u = num_of_Z c ->
            coins u = NaN \/ exists d, 0 <= d <= 50 /\ coins u = num_of_Z (c + d))
    as Hsame.
  { intros c Hc. right. exists 0. by rewrite Z.add_0_r. }
  destruct (serve_users BOT_TOKEN req st) as [->|(k & _ & _ & Hchange)];
    [by exists u|].
  destruct (users_change_at _ _ _ _ _ _ Hchange Hi)
    as (u' & Hi' & [->|(name & delta & safe & now & Hs & ->)]);
    [by exists u|].
  eexists. split; [exact Hi'|]. by apply (merge_coins _ delta).
Qed.


(** Property X7.  A request keeps every record where it is under its
    key, and does one of three things to its balance: it leaves it, or
    adds an integer from 0 to 50 to it, or turns it into [NaN].  A
    balance that is [NaN] stays [NaN]. *)
Theorem X7_balance_step `{Platform} BOT_TOKEN req st i key u :
  users st !! i = Some (key, u) ->
  exists u',
    users (serve BOT_TOKEN req st).1 !! i = Some (key, u') /\
    (coins u = NaN -> coins u' = NaN) /\
    (forall c, coins u = num_of_Z c ->
               coins u' = NaN \/
               exists d, 0 <= d <= 50 /\ coins u' = num_of_Z (c + d)).
Proof. apply serve_balance_step. Qed.

Lemma X7_balance_step_witness :
  exists u',
    users (serve (H:=sample_platform) EmptyString
             (POST_tap (Some (tap_body "u1" (VObj []))) (at_time 1500))
             sample_state).1 !! 0%nat
    = Some (VStr "u1", u') /\
    (coins u' = NaN \/ exists d, 0 <= d <= 50 /\ coins u' = num_of_Z (30 + d)).
Proof.
  destruct (X7_balance_step (H:=sample_platform) EmptyString
              (POST_tap (Some (tap_body "u1" (VObj []))) (at_time 1500))
              sample_state 0 (VStr "u1") _ eq_refl)
    as (u' & Hi & _ & Hstep).
  exists u'. split; [exact Hi|]. exact (Hstep 30 eq_refl).
Defined.

(** ** Extra properties: the limiter *)

Section Limiter.
Context `{Platform} (BOT_TOKEN : string).

Lemma checkRateLimit_open limits now k :
  now - default 0 (Map_get limits k) >= 500 ->
  checkRateLimit limits now k = (Map_set limits k now, true).
Proof.
  intros Hlate. unfold checkRateLimit.
  destruct (Map_get limits k) as [last|]; cbn in Hlate.
  - destruct (Z.eqb_spec last 0) as [->|_];
      by rewrite (proj2 (Z.ltb_ge _ _)) by lia.
  - by rewrite (proj2 (Z.ltb_ge _ _)) by lia.
Qed.

(** A sync that passes every gate and whose [coins] converts. *)
Lemma handleTap_open body clock st safe :
  ToBoolean (property body "userId") = true ->
  ToBoolean (property body "coins") = true ->
  validateInitData BOT_TOKEN (property body "initData") = Return true ->
  now_checkRateLimit clock
  - default 0 (Map_get (rateLimits st) (property body "userId")) >= 500 ->
  safeCoins (property body "coins") = Return safe ->
  exists us1 ref old,
    getUser (users st) (now_getUser clock) (property body "userId")
    = (us1, (ref, old)) /\
    handleTap BOT_TOKEN body clock st
    = ({| users :=
            store_at ref
              (merge (property body "userName") safe (now_handleTap clock) old)
              us1;
          rateLimits :=
            Map_set (rateLimits st) (property body "userId")
              (now_checkRateLimit clock) |},
       Return (sendJSON 200
                 (UserBody (merge (property body "userName") safe
                              (now_handleTap clock) old)))).
Proof.
  intros Huid Hdelta Hauth Hlate Hsafe. unfold handleTap.
  rewrite (property_truthy _ _ Huid), Huid, Hdelta, Hauth. cbn [negb orb].
  rewrite (checkRateLimit_open _ _ _ Hlate). cbv zeta. cbn [negb users].
  rewrite Hsafe.
  destruct (getUser _ _ _) as [us1 [ref old]]. by exists us1, ref, old.
Qed.

Lemma Map_find_object {V} (m : list (value * V)) k :
  SameValueZero k k = false -> Map_find m k = None.
Proof.
  intros Hk. induction m as [|[k0 v0] m IH]; cbn; [done|].
  destruct (SameValueZero k0 k) eqn:E; [|by rewrite IH].
  rewrite SameValueZero_sym in E.
  pose proof (SameValueZero_trans _ _ _ E ltac:(by rewrite SameValueZero_sym)).
  congruence.
Qed.
End Limiter.

(** A sync for a user the limiter admitted 500 ms ago or more. *)
Lemma handleTap_after_cooldown `{Platform} BOT_TOKEN
    body1 clock1 st0 body2 clock2 safe :
  ToBoolean (property body1 "userId") = true ->
  ToBoolean (property body1 "coins") = true ->
  validateInitData BOT_TOKEN (property body1 "initData") = Return true ->
  (checkRateLimit (rateLimits st0) (now_checkRateLimit clock1)
     (property body1 "userId")).2 = true ->
  SameValueZero (property body1 "userId") (property body2 "userId") = true ->
  ToBoolean (property body2 "userId") = true ->
  ToBoolean (property body2 "coins") = true ->
  validateInitData BOT_TOKEN (property body2 "initData") = Return true ->
  now_checkRateLimit clock2 - now_checkRateLimit clock1 >= 500 ->
  safeCoins (property body2 "coins") = Return safe ->
  exists st2 r,
    handleTap BOT_TOKEN body2 clock2 (handleTap BOT_TOKEN body1 clock1 st0).1
    = (st2, Return r) /\
    status r = 200 /\
    Map_get (rateLimits st2) (property body2 "userId")
    = Some (now_checkRateLimit clock2).
Proof.
  intros Huid1 Hdelta1 Hauth1 Hadmit Hsame Huid2 Hdelta2 Hauth2 Hlate Hsafe.
  pose proof (handleTap_at_limiter _ _ clock1 st0 Huid1 Hdelta1 Hauth1) as Hfirst.
  destruct (checkRateLimit (rateLimits st0) _ _) as [limits admitted].
  cbn in Hadmit. subst admitted. destruct Hfirst as [Hlimits ->].
  destruct (handleTap_open BOT_TOKEN body2 clock2
              (handleTap BOT_TOKEN body1 clock1 st0).1 safe
              Huid2 Hdelta2 Hauth2) as (us1 & ref & old & _ & ->); [|done|].
  { rewrite Hlimits, (Map_get_set _ _ _ _ Hsame). cbn. lia. }
  eexists _, _. split; [done|]. split; [done|]. cbn.
  apply Map_get_set.
  rewrite SameValueZero_sym in Hsame.
  apply (SameValueZero_trans _ _ _ Hsame).
  by rewrite SameValueZero_sym.
Qed.


(** Property X8.  Once the cooldown is over the next sync goes through:
    after a sync that the limiter admitted, a sync for the same user
    that passes validation and the check of [initData], comes 500 ms or
    more after the first and carries [coins] that convert to a number
    without throwing, is answered 200, and its time replaces the time
    of the first in the limiter. *)
Theorem X8_sync_after_cooldown_is_accepted `{Platform} BOT_TOKEN
    body1 clock1 st0 body2 clock2 safe :
  ToBoolean (property body1 "userId") = true ->
  ToBoolean (property body1 "coins") = true ->
  validateInitData BOT_TOKEN (property body1 "initData") = Return true ->
  (checkRateLimit (rateLimits st0) (now_checkRateLimit clock1)
     (property body1 "userId")).2 = true ->
  SameValueZero (property body1 "userId") (property body2 "userId") = true ->
  ToBoolean (property body2 "userId") = true ->
  ToBoolean (property body2 "coins") = true ->
  validateInitData BOT_TOKEN (property body2 "initData") = Return true ->
  now_checkRateLimit clock2 - now_checkRateLimit clock1 >= 500 ->
  safeCoins (property body2 "coins") = Return safe ->
  exists st2 r,
    handleTap BOT_TOKEN body2 clock2 (handleTap BOT_TOKEN body1 clock1 st0).1
    = (st2, Return r) /\
    status r = 200 /\
    Map_get (rateLimits st2) (property body2 "userId")
    = Some (now_checkRateLimit clock2).
Proof. apply handleTap_after_cooldown. Qed.

Lemma X8_sync_after_cooldown_is_accepted_witness :
  exists st2 r,
    handleTap (H:=sample_platform) EmptyString
      (tap_body "u1" (VNum (num_of_Z 30))) (at_time 1500) sample_state
    = (st2, Return r) /\
    status r = 200 /\
    Map_get (rateLimits st2) (VStr "u1") = Some 1500.
Proof.
  refine (X8_sync_after_cooldown_is_accepted (H:=sample_platform) EmptyString
            (tap_body "u1" (VNum (num_of_Z 30))) (at_time 1000) initial
            (tap_body "u1" (VNum (num_of_Z 30))) (at_time 1500) (num_of_Z 30)
            eq_refl eq_refl eq_refl eq_refl eq_refl eq_refl eq_refl eq_refl
            _ eq_refl).
  cbn. lia.
Defined.

(** Property X9.  A [userId] that is an array or an object is a new
    user each time: the limiter has no time for it and the users no
    record, so when the clock reads 500 or more a valid sync with such
    a [userId] is never throttled, and it adds a record at the end of
    the users and an entry at the end of the limiter. *)
Theorem X9_object_userId_is_always_new `{Platform} BOT_TOKEN body clock st safe :
  SameValueZero (property body "userId") (property body "userId") = false ->
  ToBoolean (property body "userId") = true ->
  ToBoolean (property body "coins") = true ->
  validateInitData BOT_TOKEN (property body "initData") = Return true ->
  now_checkRateLimit clock >= 500 ->
  safeCoins (property body "coins") = Return safe ->
  let user :=
    merge (property body "userName") safe (now_handleTap clock)
      (new_user (property body "userId") (now_getUser clock)) in
  handleTap BOT_TOKEN body clock st
  = ({| users := users st ++ [(property body "userId", user)];
        rateLimits :=
          rateLimits st ++ [(property body "userId", now_checkRateLimit clock)] |},
     Return (sendJSON 200 (UserBody user))).
Proof.
  intros Hobject Huid Hdelta Hauth Hlate Hsafe user.
  pose proof (Map_find_object (users st) _ Hobject) as Hu.
  pose proof (Map_find_object (rateLimits st) _ Hobject) as Hl.
  destruct (handleTap_open BOT_TOKEN body clock st safe
              Huid Hdelta Hauth) as (us1 & ref & old & Hg & ->); [|done|].
  { unfold Map_get. rewrite Hl. cbn. lia. }
  destruct (getUser_cases _ _ _ _ _ _ Hg) as [[Hf _]|(_ & -> & -> & ->)];
    [congruence|].
  by rewrite store_at_snoc, (Map_set_fresh _ _ _ Hl).
Qed.

Lemma X9_object_userId_is_always_new_witness :
  exists user,
    handleTap (H:=sample_platform) EmptyString
      (VObj [("userId"%string, VArr [VStr "u1"]);
             ("coins"%string, VNum (num_of_Z 30))])
      (at_time 1001) sample_state
    = ({| users := users sample_state ++ [(VArr [VStr "u1"], user)];
          rateLimits := rateLimits sample_state ++ [(VArr [VStr "u1"], 1001)] |},
       Return (sendJSON 200 (UserBody user))).
Proof.
  eexists.
  refine (X9_object_userId_is_always_new (H:=sample_platform) EmptyString
            (VObj [("userId"%string, VArr [VStr "u1"]);
                   ("coins"%string, VNum (num_of_Z 30))])
            (at_time 1001) sample_state (num_of_Z 30)
            eq_refl eq_refl eq_refl eq_refl _ eq_refl).
  cbn. lia.
Defined.

(** ** Extra properties: the leaderboard *)

Section Ranking.

Lemma sort_insert_perm {A} (comparefn : A -> A -> number) x l :
  sort_insert comparefn x l ≡ₚ x :: l.
Proof.
  induction l as [|y l IH]; cbn [sort_insert]; [done|].
  destruct (num_lt (num_of_Z 0) (comparefn x y)); [|done].
  rewrite IH. apply Permutation_swap.
Qed.

Lemma Array_sort_perm {A} (comparefn : A -> A -> number) l :
  Array_sort comparefn l ≡ₚ l.
Proof.
  induction l as [|x l IH]; [done|].
  change (sort_insert comparefn x (Array_sort comparefn l) ≡ₚ x :: l).
  by rewrite sort_insert_perm, IH.
Qed.




Lemma StronglySorted_app_between {A} (R : A -> A -> Prop) l1 l2 x y :
  StronglySorted R (l1 ++ l2) -> x ∈ l1 -> y ∈ l2 -> R x y.
Proof.
  induction l1 as [|z l1 IH]; cbn; [by intros _ ?%elem_of_nil|].
  intros [Hsorted Hz]%StronglySorted_inv [->|Hx]%elem_of_cons Hy.
  - apply (proj1 (Forall_forall _ _) Hz). apply elem_of_app. by right.
  - by apply IH.
Qed.
End Ranking.

(** Property X10.  The leaderboard is made of the records of the users:
    its entries are the first 100 of a rearrangement of all the
    records, each record once, so it has as many entries as there are
    users, up to 100, and it answers 200 with the state as it was. *)
Theorem X10_leaderboard_lists_the_records st :
  handleLeaderboard st
  = (st, sendJSON 200 (BoardBody (entry_of <$> take 100 (ranking st)))) /\
  ranking st ≡ₚ Map_values (users st) /\
  length (entry_of <$> take 100 (ranking st))
  = Nat.min 100 (length (users st)).
Proof.
  split; [done|]. split; [apply Array_sort_perm|].
  rewrite length_fmap, length_take. unfold ranking.
  rewrite (Permutation_length (Array_sort_perm by_coins (Map_values (users st)))).
  unfold Map_values. by rewrite length_fmap.
Qed.


(** Property X12.  When no balance is [NaN], nobody left out of the
    leaderboard has more coins than somebody listed: every record
    among the first 100 of the ranking has at least the balance of
    every record after them. *)
Theorem X12_leaderboard_keeps_the_richest st u v :
  Forall (fun e => coins e.2 <> NaN) (users st) ->
  u ∈ take 100 (ranking st) -> v ∈ drop 100 (ranking st) ->
  num_ge (coins u) (coins v) = true.
Proof.
  intros Hst Hu Hv.
  apply (StronglySorted_app_between ge_coins
           (take 100 (ranking st)) (drop 100 (ranking st))); [|done|done].
  rewrite take_drop. apply Array_sort_sorted.
  unfold Map_values. by apply Forall_fmap.
Qed.

Lemma X12_leaderboard_keeps_the_richest_witness :
  numbered_user 101 ∈ take 100 (ranking crowd) /\
  numbered_user 1 ∈ drop 100 (ranking crowd) /\
  num_ge (coins (numbered_user 101)) (coins (numbered_user 1)) = true.
Proof.
  assert (numbered_user 101 ∈ take 100 (ranking crowd)) as Hin.
  { apply (list_elem_of_lookup_2 _ 0%nat). by vm_compute. }
  assert (numbered_user 1 ∈ drop 100 (ranking crowd)) as Hout.
  { apply (list_elem_of_lookup_2 _ 0%nat). by vm_compute. }
  split; [exact Hin|]. split; [exact Hout|].
  apply (X12_leaderboard_keeps_the_richest crowd); [|exact Hin|exact Hout].
  apply Forall_fmap, Forall_forall. intros n _. discriminate.
Defined.

(** ** Extra properties: the check of initData *)

(** Property X13.  With a token configured and a payload that parses,
    [validateInitData] accepts exactly when the first [hash] field of
    the payload is the hash it computes from the other fields; the
    [hash] fields themselves are not part of what is hashed. *)
Theorem X13_validateInitData_verdict `{Platform} BOT_TOKEN initData params :
  BOT_TOKEN <> EmptyString -> ToBoolean initData = true ->
  URLSearchParams initData = Return params ->
  validateInitData BOT_TOKEN initData
  = Return (bool_decide
              (params_get "hash" params = Some (expected_hash BOT_TOKEN params))) /\
  forall h, expected_hash BOT_TOKEN (("hash"%string, h) :: params)
            = expected_hash BOT_TOKEN params.
Proof.
  intros Htoken Hdata Hparams. split; [|done].
  unfold validateInitData, check_hash. rewrite Hdata, Hparams.
  destruct BOT_TOKEN as [|c token]; [done|]. cbn [ToBoolean negb orb String.eqb bind].
  fold (expected_hash (String c token) params).
  destruct (params_get "hash" params) as [h|]; [|done]. f_equal.
  destruct (String.eqb_spec (expected_hash (String c token) params) h) as [->|Hne].
  - by rewrite bool_decide_eq_true_2.
  - rewrite bool_decide_eq_false_2; [done|]. congruence.
Qed.

Lemma X13_validateInitData_verdict_witness :
  validateInitData (H:=sample_platform) "secret"
    (VObj [("user"%string, VStr "1"); ("hash"%string, VStr "user=1")])
  = Return true /\
  validateInitData (H:=sample_platform) "secret"
    (VObj [("user"%string, VStr "1"); ("hash"%string, VStr "user=2")])
  = Return false.
Proof.
  split.
  - refine (eq_trans (proj1 (X13_validateInitData_verdict (H:=sample_platform)
                               "secret"
                               (VObj [("user"%string, VStr "1");
                                      ("hash"%string, VStr "user=1")])
                               [("user", "1"); ("hash", "user=1")]%string
                               _ eq_refl eq_refl)) eq_refl).
    discriminate.
  - refine (eq_trans (proj1 (X13_validateInitData_verdict (H:=sample_platform)
                               "secret"
                               (VObj [("user"%string, VStr "1");
                                      ("hash"%string, VStr "user=2")])
                               [("user", "1"); ("hash", "user=2")]%string
                               _ eq_refl eq_refl)) eq_refl).
    discriminate.
Defined.

(** ** Extra properties: the answers *)

Section Answers.
Context `{Platform} (BOT_TOKEN : string).

Lemma handleTap_answer body clock st r :
  (handleTap BOT_TOKEN body clock st).2 = Return r ->
  (exists user, r = sendJSON 200 (UserBody user)) \/
  (exists error, (r = sendJSON 400 (ErrorBody error) \/
                  r = sendJSON 403 (ErrorBody error) \/
                  r = sendJSON 429 (ErrorBody error))).
Proof.
  unfold handleTap.
  destruct (destructure body) as [[[[uid name] delta] init]|]; [|done].
  destruct (negb _ || negb _); [intros [= <-]; right; eauto|].
  destruct (validateInitData _ _) as [[]|]; [|intros [= <-]; right; eauto|done].
  destruct (checkRateLimit _ _ _) as [limits []]; cbn;
    [|intros [= <-]; right; eauto].
  destruct (safeCoins _) as [safe|]; [|done].
  destruct (getUser _ _ _) as [us1 [ref u]]. intros [= <-]. left. eauto.
Qed.
End Answers.

(** Property X14.  Every answer to an API request is written by
    [sendJSON]: it carries the JSON content type and the three CORS
    fields, its status is 200, 400, 403 or 429, and it is 200 exactly
    when the body is a record or a leaderboard rather than an error. *)
Theorem X14_api_answers `{Platform} BOT_TOKEN req st :
  headers (serve BOT_TOKEN req st).2 = json_cors_headers /\
  (status (serve BOT_TOKEN req st).2 = 200 \/
   status (serve BOT_TOKEN req st).2 = 400 \/
   status (serve BOT_TOKEN req st).2 = 403 \/
   status (serve BOT_TOKEN req st).2 = 429) /\
  (status (serve BOT_TOKEN req st).2 = 200 <->
   forall error, data (serve BOT_TOKEN req st).2 <> ErrorBody error).
Proof.
  destruct req as [id now|[body|] clk|]; cbn [serve].
  - unfold handleGetUser. destruct (getUser _ _ _) as [us1 [ref u]]. cbn.
    split; [done|]. split; [by left|]. by split.
  - pose proof (handleTap_answer BOT_TOKEN body clk st) as Hanswer.
    destruct (handleTap _ _ _ _) as [st' [r|e]]; cbn in *.
    + destruct (Hanswer r eq_refl) as [[user ->]|[error [-> | [-> | ->]]]]; cbn;
        (split; [done|]); (split; [auto|]); split; try done;
        intros Herr; by destruct (Herr error).
    + split; [done|]. split; [auto|]. split; [done|].
      intros Herr. by destruct (Herr "Invalid JSON"%string).
  - cbn. split; [done|]. split; [auto|]. split; [done|].
    intros Herr. by destruct (Herr "Invalid JSON"%string).
  - cbn. split; [done|]. split; [by left|]. by split.
Qed.

(** Property X15.  A [POST /api/tap] whose body is not an object is
    answered 400 and changes nothing: "Invalid JSON" when the body does
    not parse or is [null], "Missing data" when it is a number, a
    string, a boolean or an array. *)
Theorem X15_body_that_is_no_object `{Platform} BOT_TOKEN body clock st :
  (forall props, body <> Some (VObj props)) ->
  serve BOT_TOKEN (POST_tap body clock) st
  = (st, sendJSON 400
           (ErrorBody
              match body with
              | None | Some VNull | Some VUndefined => "Invalid JSON"
              | _ => "Missing data"
              end)).
Proof.
  intros Hbody. destruct body as [[| | | | | |props]|]; try done.
  by destruct (Hbody props).
Qed.

Lemma X15_body_that_is_no_object_witness :
  serve (H:=sample_platform) EmptyString
    (POST_tap (Some (VArr [VStr "u1"; VNum (num_of_Z 30)])) (at_time 2000))
    sample_state
  = (sample_state, sendJSON 400 (ErrorBody "Missing data")) /\
  serve (H:=sample_platform) EmptyString
    (POST_tap (Some VNull) (at_time 2000)) sample_state
  = (sample_state, sendJSON 400 (ErrorBody "Invalid JSON")).
Proof.
  split.
  - refine (X15_body_that_is_no_object (H:=sample_platform) EmptyString
              (Some (VArr [VStr "u1"; VNum (num_of_Z 30)])) (at_time 2000)
              sample_state _).
    discriminate.
  - refine (X15_body_that_is_no_object (H:=sample_platform) EmptyString
              (Some VNull) (at_time 2000) sample_state _).
    discriminate.
Defined.

(** ** Extra properties: the request listener *)

Section Paths.

Lemma split_slash_not_nil s : split_slash s <> [].
Proof.
  destruct s as [|c s]; cbn; [done|].
  destruct (Ascii.eqb c "/"); [done|]. by destruct (split_slash s).
Qed.

Lemma split_slash_segment a rest :
  slash_free a = true ->
  split_slash (a ++ String "/" rest) = a :: split_slash rest.
Proof.
  induction a as [|c a IH]; [done|].
  change (String c a ++ String "/" rest)%string
    with (String c (a ++ String "/" rest))%string.
  cbn [slash_free split_slash].
  destruct (Ascii.eqb c "/"); [done|]. cbn [negb andb]. intros Ha.
  by rewrite IH.
Qed.

Lemma split_slash_last a : slash_free a = true -> split_slash a = [a].
Proof.
  induction a as [|c a IH]; cbn; [done|].
  destruct (Ascii.eqb c "/"); [done|]. cbn. intros Ha. by rewrite IH.
Qed.

Lemma prefix_app s p : String.prefix s p = true -> exists t, p = (s ++ t)%string.
Proof.
  revert p. induction s as [|a s IH]; intros p; [by exists p|].
  destruct p as [|b p]; cbn [String.prefix]; [done|].
  destruct (ascii_dec a b) as [->|]; [|done].
  intros [t ->]%IH. by exists t.
Qed.

Lemma prefix_append s t : String.prefix s (s ++ t) = true.
Proof.
  induction s as [|a s IH]; [by destruct t|].
  change (String a s ++ t)%string with (String a (s ++ t))%string.
  cbn [String.prefix]. by destruct (ascii_dec a a).
Qed.

(** Under [/api/user/] the path has a fourth segment. *)
Lemma split_slash_api_user p :
  String.prefix "/api/user/" p = true ->
  exists t, p = ("/api/user/" ++ t)%string /\
            split_slash p !! 3%nat = head (split_slash t).
Proof.
  intros [t ->]%prefix_app. exists t. split; [done|].
  change ("/api/user/" ++ t)%string
    with (EmptyString ++ String "/" ("api" ++ String "/" ("user" ++ String "/" t)))%string.
  rewrite !split_slash_segment by done. by rewrite head_lookup.
Qed.
End Paths.

(** Property X16.  The listener changes the state only through the
    three API handlers: a state the server can reach is followed, after
    any incoming request, by a state it can reach, so what holds of
    every reachable state holds of the server behind its HTTP
    routes. *)
Theorem X16_listener_stays_reachable `{Platform} `{Files} BOT_TOKEN req st :
  reachable BOT_TOKEN st -> reachable BOT_TOKEN (listener BOT_TOKEN req st).1.
Proof.
  intros Hst. unfold listener.
  destruct (String.eqb (method req) "OPTIONS"); [done|].
  destruct (String.prefix "/api/" (pathname req)); [|done].
  destruct (String.eqb (method req) "GET"
            && String.prefix "/api/user/" (pathname req)) eqn:Euser.
  { apply andb_true_iff in Euser as [_ Hprefix].
    destruct (split_slash_api_user _ Hprefix) as (t & _ & ->).
    pose proof (split_slash_not_nil t) as Hsegments.
    destruct (split_slash t) as [|segment segments]; [done|]. cbn [head].
    pose proof (reachable_serve BOT_TOKEN st
                  (GET_user segment (now_getUser (clock req))) Hst) as Hnext.
    cbn [serve] in Hnext. unfold handleGetUser in Hnext.
    by destruct (getUser _ _ _) as [us1 [ref u]]. }
  destruct (String.eqb (method req) "POST" && _).
  { pose proof (reachable_serve BOT_TOKEN st
                  (POST_tap (parsed req) (clock req)) Hst) as Hnext.
    by destruct (serve _ _ _) as [st' res]. }
  destruct (String.eqb (method req) "GET"
            && String.eqb (pathname req) "/api/leaderboard"); exact Hst.
Qed.

Lemma X16_listener_stays_reachable_witness :
  reachable (H:=sample_platform) EmptyString
    (listener (H:=sample_platform) (H0:=sample_files) EmptyString
       {| method := "GET"; pathname := "/api/user/u2";
          parsed := None; clock := at_time 2000 |}
       sample_state).1.
Proof.
  apply (X16_listener_stays_reachable (H:=sample_platform) (H0:=sample_files)).
  apply reachable_serve, reachable_initial.
Defined.

(** Property X17.  Three kinds of request never change the state: an
    [OPTIONS] request, on whatever path and with whatever body, which
    is answered 204 with the three CORS fields and no body;  a request
    for a path outside [/api/], which is answered by [serveStatic];
    and a request under [/api/] whose method is neither [GET] nor
    [POST], which is answered 404 "Not found". *)
Theorem X17_requests_that_change_nothing `{Platform} `{Files} BOT_TOKEN req st :
  (method req = "OPTIONS"%string -> listener BOT_TOKEN req st = (st, preflight)) /\
  (method req <> "OPTIONS"%string ->
   String.prefix "/api/" (pathname req) = false ->
   listener BOT_TOKEN req st
   = (st, serveStatic
            (public_path (if String.eqb (pathname req) "/"
                          then "index.html"%string else pathname req)))) /\
  (method req <> "OPTIONS"%string -> method req <> "GET"%string ->
   method req <> "POST"%string ->
   String.prefix "/api/" (pathname req) = true ->
   listener BOT_TOKEN req st
   = (st, of_response (sendJSON 404 (ErrorBody "Not found")))).
Proof.
  unfold listener. repeat split.
  - by intros ->.
  - intros Hmethod%String.eqb_neq Hpath. by rewrite Hmethod, Hpath.
  - intros Hoptions%String.eqb_neq Hget%String.eqb_neq Hpost%String.eqb_neq Hpath.
    by rewrite Hoptions, Hpath, Hget, Hpost.
Qed.

Lemma X17_requests_that_change_nothing_witness :
  listener (H:=sample_platform) (H0:=sample_files) EmptyString
    {| method := "OPTIONS"; pathname := "/api/tap";
       parsed := Some (tap_body "u1" (VNum (num_of_Z 30)));
       clock := at_time 2000 |}
    sample_state
  = (sample_state, preflight) /\
  listener (H:=sample_platform) (H0:=sample_files) EmptyString
    {| method := "DELETE"; pathname := "/api/user/u1";
       parsed := None; clock := at_time 2000 |}
    sample_state
  = (sample_state, of_response (sendJSON 404 (ErrorBody "Not found"))).
Proof.
  split.
  - exact (proj1 (X17_requests_that_change_nothing
                    (H:=sample_platform) (H0:=sample_files) EmptyString
                    {| method := "OPTIONS"; pathname := "/api/tap";
                       parsed := Some (tap_body "u1" (VNum (num_of_Z 30)));
                       clock := at_time 2000 |}
                    sample_state) eq_refl).
  - refine (proj2 (proj2 (X17_requests_that_change_nothing
                            (H:=sample_platform) (H0:=sample_files) EmptyString
                            {| method := "DELETE"; pathname := "/api/user/u1";
                               parsed := None; clock := at_time 2000 |}
                            sample_state)) _ _ _ eq_refl); discriminate.
Defined.

(** Property X18.  [GET /api/user/:id] reads the id as the fourth
    segment of the path: what comes after [/api/user/] up to the next
    slash or the end, the empty string included.  The request is then
    answered as [handleGetUser] answers that id, and whatever follows
    the next slash is ignored. *)
Theorem X18_user_id_is_fourth_segment `{Platform} `{Files} BOT_TOKEN req st id rest :
  method req = "GET"%string ->
  slash_free id = true ->
  pathname req = ("/api/user/" ++ id)%string \/
  pathname req = ("/api/user/" ++ id ++ String "/" rest)%string ->
  listener BOT_TOKEN req st
  = ((handleGetUser id (now_getUser (clock req)) st).1,
     of_response (handleGetUser id (now_getUser (clock req)) st).2).
Proof.
  intros Hmethod Hid Hpath.
  assert (String.prefix "/api/user/" (pathname req) = true /\
          split_slash (pathname req) !! 3%nat = Some id) as [Hprefix Hsegment].
  { destruct Hpath as [-> | ->]; (split; [apply prefix_append|]).
    - change ("/api/user/" ++ id)%string
        with (EmptyString ++ String "/" ("api" ++ String "/" ("user" ++ String "/" id)))%string.
      by rewrite !split_slash_segment, split_slash_last by done.
    - change ("/api/user/" ++ id ++ String "/" rest)%string
        with (EmptyString ++ String "/" ("api" ++ String "/"
                ("user" ++ String "/" (id ++ String "/" rest))))%string.
      by rewrite !split_slash_segment by done. }
  unfold listener, handleGetUser. rewrite Hmethod, Hprefix, Hsegment.
  destruct (prefix_app _ _ Hprefix) as [t ->]. cbn.
  by destruct (getUser _ _ _) as [us1 [ref u]].
Qed.

Lemma X18_user_id_is_fourth_segment_witness :
  listener (H:=sample_platform) (H0:=sample_files) EmptyString
    {| method := "GET"; pathname := "/api/user/u1/coins";
       parsed := None; clock := at_time 2000 |}
    sample_state
  = ((handleGetUser "u1" 2000 sample_state).1,
     of_response (handleGetUser "u1" 2000 sample_state).2).
Proof.
  exact (X18_user_id_is_fourth_segment
           (H:=sample_platform) (H0:=sample_files) EmptyString
           {| method := "GET"; pathname := "/api/user/u1/coins";
              parsed := None; clock := at_time 2000 |}
           sample_state "u1" "coins" eq_refl eq_refl (or_intror eq_refl)).
Defined.

(** ** Extra properties: sequences of syncs *)

Section Sequences.
Context `{Platform} (BOT_TOKEN : string).

(** A sync for a user the limiter admitted less than 500 ms ago. *)
Lemma handleTap_in_cooldown body1 clock1 st0 body2 clock2 :
  ToBoolean (property body1 "userId") = true ->
  ToBoolean (property body1 "coins") = true ->
  validateInitData BOT_TOKEN (property body1 "initData") = Return true ->
  (checkRateLimit (rateLimits st0) (now_checkRateLimit clock1)
     (property body1 "userId")).2 = true ->
  SameValueZero (property body1 "userId") (property body2 "userId") = true ->
  ToBoolean (property body2 "userId") = true ->
  ToBoolean (property body2 "coins") = true ->
  validateInitData BOT_TOKEN (property body2 "initData") = Return true ->
  now_checkRateLimit clock2 - now_checkRateLimit clock1 < 500 ->
  handleTap BOT_TOKEN body2 clock2 (handleTap BOT_TOKEN body1 clock1 st0).1
  = ((handleTap BOT_TOKEN body1 clock1 st0).1,
     Return (sendJSON 429 (ErrorBody "Too fast"))).
Proof.
  intros Huid1 Hdelta1 Hauth1 Hadmit Hsame Huid2 Hdelta2 Hauth2 Hsoon.
  pose proof (handleTap_at_limiter _ _ clock1 st0 Huid1 Hdelta1 Hauth1) as Hfirst.
  destruct (checkRateLimit (rateLimits st0) _ _) as [limits admitted].
  cbn in Hadmit. subst admitted. destruct Hfirst as [Hlimits ->].
  pose proof (handleTap_at_limiter _ _ clock2
                (handleTap BOT_TOKEN body1 clock1 st0).1
                Huid2 Hdelta2 Hauth2) as Hsecond.
  rewrite (checkRateLimit_throttled _ _ _ (now_checkRateLimit clock1))
    in Hsecond; [done| |done].
  rewrite Hlimits. by apply Map_get_set.
Qed.

Lemma reachable_level st :
  reachable BOT_TOKEN st ->
  Forall (fun e => level e.2 = calculateLevel (coins e.2)) (users st).
Proof.
  by apply (reachable_preserves BOT_TOKEN
              (fun u => level u = calculateLevel (coins u))).
Qed.
End Sequences.

(** Property X19.  A throttled attempt does not extend the cooldown:
    after a sync admitted at one time and an attempt for the same user
    less than 500 ms later, which is answered 429, a third sync 500 ms
    or more after the first is accepted, however soon it comes after
    the throttled attempt. *)
Theorem X19_throttled_attempt_does_not_extend_cooldown `{Platform} BOT_TOKEN
    body clock1 clock2 clock3 st0 safe :
  ToBoolean (property body "userId") = true ->
  ToBoolean (property body "coins") = true ->
  validateInitData BOT_TOKEN (property body "initData") = Return true ->
  SameValueZero (property body "userId") (property body "userId") = true ->
  (checkRateLimit (rateLimits st0) (now_checkRateLimit clock1)
     (property body "userId")).2 = true ->
  now_checkRateLimit clock2 - now_checkRateLimit clock1 < 500 ->
  now_checkRateLimit clock3 - now_checkRateLimit clock1 >= 500 ->
  safeCoins (property body "coins") = Return safe ->
  let st1 := (handleTap BOT_TOKEN body clock1 st0).1 in
  let second := handleTap BOT_TOKEN body clock2 st1 in
  second = (st1, Return (sendJSON 429 (ErrorBody "Too fast"))) /\
  exists st3 r,
    handleTap BOT_TOKEN body clock3 second.1 = (st3, Return r) /\
    status r = 200.
Proof.
  intros Huid Hdelta Hauth Hkey Hadmit Hsoon Hlate Hsafe st1 second.
  assert (second = (st1, Return (sendJSON 429 (ErrorBody "Too fast"))))
    as Hsecond by by apply handleTap_in_cooldown.
  split; [done|]. rewrite Hsecond. cbn [fst].
  destruct (handleTap_after_cooldown BOT_TOKEN body clock1 st0 body clock3 safe)
    as (st3 & r & Hthird & Hok & _); try done.
  by exists st3, r.
Qed.

Lemma X19_throttled_attempt_does_not_extend_cooldown_witness :
  handleTap (H:=sample_platform) EmptyString
    (tap_body "u1" (VNum (num_of_Z 30))) (at_time 1499) sample_state
  = (sample_state, Return (sendJSON 429 (ErrorBody "Too fast"))) /\
  exists st3 r,
    handleTap (H:=sample_platform) EmptyString
      (tap_body "u1" (VNum (num_of_Z 30))) (at_time 1500)
      (handleTap (H:=sample_platform) EmptyString
         (tap_body "u1" (VNum (num_of_Z 30))) (at_time 1499) sample_state).1
    = (st3, Return r) /\
    status r = 200.
Proof.
  refine (X19_throttled_attempt_does_not_extend_cooldown
            (H:=sample_platform) EmptyString
            (tap_body "u1" (VNum (num_of_Z 30)))
            (at_time 1000) (at_time 1499) (at_time 1500) initial (num_of_Z 30)
            eq_refl eq_refl eq_refl eq_refl eq_refl _ _ eq_refl); cbn; lia.
Defined.

(** Property X20.  Levels do not drop while the balance is a number: in
    a state the server can reach, after any request the record of a
    user whose balance is then not [NaN] has a level at least as high
    as before. *)
Theorem X20_level_never_drops `{Platform} BOT_TOKEN req st i key u u' :
  reachable BOT_TOKEN st ->
  users st !! i = Some (key, u) ->
  users (serve BOT_TOKEN req st).1 !! i = Some (key, u') ->
  coins u' <> NaN ->
  level u <= level u'.
Proof.
  intros Hst Hi Hi' Hnumber.
  pose proof (Forall_lookup_1 _ _ _ _ (reachable_level BOT_TOKEN st Hst) Hi)
    as Hlevel.
  pose proof (Forall_lookup_1 _ _ _ _
                (reachable_level BOT_TOKEN _ (reachable_serve _ st req Hst)) Hi')
    as Hlevel'.
  pose proof (Forall_lookup_1 _ _ _ _ (reachable_coins BOT_TOKEN st Hst) Hi)
    as Hcoins.
  cbn in Hlevel, Hlevel', Hcoins. rewrite Hlevel, Hlevel'.
  destruct (serve_balance_step BOT_TOKEN req st i key u Hi) as (u'' & Hi'' & Hnan & Hstep).
  rewrite Hi' in Hi''. injection Hi'' as <-.
  destruct Hcoins as [Hc|(c & Hc & Hu)]; [by destruct (Hnumber (Hnan Hc))|].
  destruct (Hstep c Hu) as [Hbad|(d & Hd & Hu')]; [done|].
  apply calculateLevel_mono. rewrite Hu, Hu', !num_ge_negb_lt by done.
  rewrite num_lt_of_Z. apply negb_true_iff, Z.ltb_ge. lia.
Qed.

Lemma X20_level_never_drops_witness :
  exists u u',
    users sample_state !! 0%nat = Some (VStr "u1", u) /\
    users (serve (H:=sample_platform) EmptyString
             (POST_tap (Some (tap_body "u1" (VNum (num_of_Z 50)))) (at_time 1500))
             sample_state).1 !! 0%nat
    = Some (VStr "u1", u') /\
    level u <= level u'.
Proof.
  eexists _, _. split; [reflexivity|]. split; [reflexivity|].
  refine (X20_level_never_drops (H:=sample_platform) EmptyString
            (POST_tap (Some (tap_body "u1" (VNum (num_of_Z 50)))) (at_time 1500))
            sample_state 0 (VStr "u1") _ _
            (reachable_serve _ _ _ (reachable_initial _)) eq_refl eq_refl _).
  discriminate.
Defined.

(** ** Extra properties: the order of the fields of initData *)

(** Insertions commute when the comparator orders the values strictly
    and transitively, so the sort of a list is the sort of each of its
    rearrangements. *)
Section SortOrder.
Context {A : Type} `{EqDecision A} (comparefn : A -> A -> number) (P : A -> Prop).
Hypothesis strict : forall a b,
  P a -> P b -> a <> b ->
  num_lt (num_of_Z 0) (comparefn a b) = negb (num_lt (num_of_Z 0) (comparefn b a)).
Hypothesis transitive : forall a b c,
  P a -> P b -> P c ->
  num_lt (num_of_Z 0) (comparefn a b) = true ->
  num_lt (num_of_Z 0) (comparefn b c) = true ->
  num_lt (num_of_Z 0) (comparefn a c) = true.

Lemma sort_insert_after x y z :
  P x -> P y -> P z ->
  num_lt (num_of_Z 0) (comparefn y z) = true ->
  num_lt (num_of_Z 0) (comparefn x z) = false ->
  num_lt (num_of_Z 0) (comparefn y x) = true.
Proof.
  intros Hx Hy Hz Hyz Hxz. destruct (decide (x = z)) as [->|Hne]; [done|].
  apply (transitive y z x); try done.
  pose proof (strict x z Hx Hz Hne) as Hstrict. rewrite Hxz in Hstrict.
  by destruct (num_lt (num_of_Z 0) (comparefn z x)).
Qed.

Lemma sort_insert_comm x y s :
  P x -> P y -> Forall P s ->
  sort_insert comparefn x (sort_insert comparefn y s)
  = sort_insert comparefn y (sort_insert comparefn x s).
Proof.
  intros Hx Hy Hs. destruct (decide (x = y)) as [->|Hxy]; [done|].
  pose proof (strict x y Hx Hy Hxy) as Hstrict.
  induction Hs as [|z s Hz Hs IH]; cbn [sort_insert].
  - rewrite Hstrict. by destruct (num_lt (num_of_Z 0) (comparefn y x)).
  - destruct (num_lt (num_of_Z 0) (comparefn y z)) eqn:Hyz,
             (num_lt (num_of_Z 0) (comparefn x z)) eqn:Hxz;
      cbn [sort_insert]; rewrite ?Hyz, ?Hxz.
    + by rewrite IH.
    + by rewrite (sort_insert_after x y z).
    + by rewrite (sort_insert_after y x z).
    + rewrite Hstrict. by destruct (num_lt (num_of_Z 0) (comparefn y x)).
Qed.

Lemma Array_sort_Permutation l l' :
  l ≡ₚ l' -> Forall P l -> Array_sort comparefn l = Array_sort comparefn l'.
Proof.
  induction 1 as [|x l l' Hperm IH|x y l|l l' l'' Hperm IH Hperm' IH'];
    intros Hl.
  - done.
  - change (sort_insert comparefn x (Array_sort comparefn l)
            = sort_insert comparefn x (Array_sort comparefn l')).
    rewrite IH; [done|]. by inversion Hl.
  - change (sort_insert comparefn y (sort_insert comparefn x (Array_sort comparefn l))
            = sort_insert comparefn x (sort_insert comparefn y (Array_sort comparefn l))).
    inversion Hl as [|? ? Hy Hl']; subst. inversion Hl' as [|? ? Hx Hl'']; subst.
    apply sort_insert_comm; [done|done|]. by apply Array_sort_Forall.
  - rewrite IH by done. apply IH'. by rewrite <- Hperm.
Qed.
End SortOrder.

(** Lookup by name in pairs whose names are distinct. *)
Lemma get_own_elem {A} name (props : list (string * A)) v :
  NoDup props.*1 -> get_own name props = Some v <-> (name, v) ∈ props.
Proof.
  induction props as [|[k w] props IH]; cbn [get_own fmap list_fmap fst].
  - intros _. split; [done|]. by intros ?%elem_of_nil.
  - intros [Hk Hprops]%NoDup_cons. rewrite elem_of_cons.
    destruct (String.eqb_spec k name) as [->|Hne].
    + split; [intros [= ->]; by left|].
      intros [[= ->]|Hin]; [done|]. destruct Hk.
      by apply (list_elem_of_fmap_2 fst _ (name, v)).
    + rewrite IH by done. split; [by right|].
      intros [[= -> ->]|Hin]; [done|done].
Qed.

Lemma get_own_Permutation {A} name (props props' : list (string * A)) :
  NoDup props.*1 -> props ≡ₚ props' -> get_own name props = get_own name props'.
Proof.
  intros Hprops Hperm.
  assert (NoDup props'.*1) as Hprops' by by rewrite <- Hperm.
  destruct (get_own name props) as [v|] eqn:Hv.
  - symmetry. apply get_own_elem; [done|]. rewrite <- Hperm.
    by apply get_own_elem.
  - destruct (get_own name props') as [v'|] eqn:Hv'; [|done].
    apply get_own_elem in Hv'; [|done]. rewrite <- Hperm in Hv'.
    apply get_own_elem in Hv'; [|done]. congruence.
Qed.

Lemma NoDup_names_inj {A} (props : list (string * A)) a b :
  NoDup props.*1 -> a ∈ props -> b ∈ props -> a.1 = b.1 -> a = b.
Proof.
  intros Hprops Ha Hb Hname. destruct a as [k v], b as [k' v']. cbn in Hname.
  subst k'. apply (get_own_elem k props) in Ha, Hb; [|done|done]. congruence.
Qed.

(** Property X21.  The order of the fields of [initData] does not
    matter: two payloads that hold the same fields, under names that
    are all distinct and that [localeCompare] orders strictly and
    transitively, get the same verdict from [validateInitData]. *)
Theorem X21_field_order_does_not_matter `{Platform} BOT_TOKEN
    initData initData' params params' :
  URLSearchParams initData = Return params ->
  URLSearchParams initData' = Return params' ->
  ToBoolean initData = ToBoolean initData' ->
  params ≡ₚ params' ->
  NoDup params.*1 ->
  (forall a b, a ∈ params.*1 -> b ∈ params.*1 -> a <> b ->
               follows a b = negb (follows b a)) ->
  (forall a b c, a ∈ params.*1 -> b ∈ params.*1 -> c ∈ params.*1 ->
                 follows a b = true -> follows b c = true -> follows a c = true) ->
  validateInitData BOT_TOKEN initData = validateInitData BOT_TOKEN initData'.
Proof.
  intros Hparams Hparams' Htruthy Hperm Hnames Hstrict Htrans.
  unfold validateInitData, check_hash.
  rewrite Htruthy, Hparams, Hparams'. cbn [bind].
  unfold params_get. rewrite <- (get_own_Permutation "hash" params params') by done.
  enough (Array_sort (fun a b => localeCompare a.1 b.1) (params_delete "hash" params)
          = Array_sort (fun a b => localeCompare a.1 b.1)
              (params_delete "hash" params')) as -> by done.
  apply (Array_sort_Permutation _ (fun e => e ∈ params)).
  - intros a b Ha Hb Hne. apply Hstrict.
    + by apply list_elem_of_fmap_2.
    + by apply list_elem_of_fmap_2.
    + intros Hname. by apply Hne, (NoDup_names_inj params).
  - intros a b c Ha Hb Hc. apply Htrans; by apply list_elem_of_fmap_2.
  - unfold params_delete. by rewrite Hperm.
  - apply Forall_forall. intros e He. unfold params_delete in He.
    by apply list_elem_of_filter in He as [_ He].
Qed.

Lemma X21_field_order_does_not_matter_witness :
  validateInitData (H:=collating_platform) "secret"
    (VObj [("user"%string, VStr "1"); ("auth_date"%string, VStr "2");
           ("hash"%string, VStr "h")])
  = validateInitData (H:=collating_platform) "secret"
      (VObj [("auth_date"%string, VStr "2"); ("hash"%string, VStr "h");
             ("user"%string, VStr "1")]).
Proof.
  refine (X21_field_order_does_not_matter (H:=collating_platform) "secret"
            (VObj [("user"%string, VStr "1"); ("auth_date"%string, VStr "2");
                   ("hash"%string, VStr "h")])
            (VObj [("auth_date"%string, VStr "2"); ("hash"%string, VStr "h");
                   ("user"%string, VStr "1")])
            [("user", "1"); ("auth_date", "2"); ("hash", "h")]%string
            [("auth_date", "2"); ("hash", "h"); ("user", "1")]%string
            eq_refl eq_refl eq_refl
            (Permutation_cons_append
               [("auth_date", "2"); ("hash", "h")]%string ("user", "1")%string)
            _ _ _).
  - by apply (bool_decide_unpack _).
  - intros a b Ha Hb Hne. cbn in Ha, Hb.
    rewrite !elem_of_cons, elem_of_nil in Ha, Hb.
    by destruct Ha as [-> | [-> | [-> | []]]], Hb as [-> | [-> | [-> | []]]].
  - intros a b c Ha Hb Hc. cbn in Ha, Hb, Hc.
    rewrite !elem_of_cons, elem_of_nil in Ha, Hb, Hc.
    by destruct Ha as [-> | [-> | [-> | []]]], Hb as [-> | [-> | [-> | []]]],
                Hc as [-> | [-> | [-> | []]]].
Defined.
